(** * Conversational IVR simulator backend: session store and intent rules

    A shallow embedding of [backend/ivr_sim_backend.py]: the menu catalog
    [MENU_STRUCTURE], the keyword classifier [detect_intent], the optional
    [openai_fallback], and the four request handlers [start_call],
    [handle_dtmf], [conversation] and [end_call] over the two module-level
    containers [active_calls] (a dict) and [call_history] (a list).

    Conventions of the embedding.
    - A Python [str] is a [string]; a character is a code point below 256,
      and [str.lower], [str.isdigit] and [str.isspace] are Python's on that
      range. The literals holding a character above it (the dash in the
      booking and agent replies of [detect_intent]) are kept as the bytes of
      the source file; literals are only ever compared and returned.
    - [None] is [None]: an [Optional[str]] is an [option string].
    - The handlers mutate module globals; here they take the store and
      return the new one together with their result.
    - [random.randint] and [datetime.utcnow().isoformat()] are inputs of the
      handlers that use them. *)

From Stdlib Require Import ZArith Ascii.
From stdpp Require Import gmap strings list fin_maps pretty.

Local Open Scope string_scope.

(** ** Python string primitives *)

Module PyStr.

(** [c.isdigit()]: the decimal digits, and the superscripts two, three and
    one, the only other characters below 256 whose Unicode numeric type is
    Digit. *)
Definition isdigit (c : ascii) : bool :=
  let n := N_of_ascii c in
  ((48 <=? n) && (n <=? 57) || (n =? 178) || (n =? 179) || (n =? 185))%N.

(** [c.isspace()]: tab to carriage return, the four information separators,
    space, next-line and no-break space. *)
Definition isspace (c : ascii) : bool :=
  let n := N_of_ascii c in
  ((9 <=? n) && (n <=? 13) || (28 <=? n) && (n <=? 32)
   || (n =? 133) || (n =? 160))%N.

(** [c.lower()]: A-Z, and the accented capitals 192..222 except the
    multiplication sign 215, move up by 32. *)
Definition lower_char (c : ascii) : ascii :=
  let n := N_of_ascii c in
  if ((65 <=? n) && (n <=? 90)
      || (192 <=? n) && (n <=? 222) && negb (n =? 215))%N
  then ascii_of_N (n + 32) else c.

(** [s.lower()] *)
Fixpoint lower (s : string) : string :=
  match s with
  | EmptyString => EmptyString
  | String c s' => String (lower_char c) (lower s')
  end.

(** [k in t] on strings: [k] occurs in [t] as a contiguous run. *)
Fixpoint contains (k t : string) : bool :=
  String.prefix k t ||
  match t with
  | EmptyString => false
  | String _ t' => contains k t'
  end.

(** ["".join(ch for ch in t if ch.isdigit())] *)
Fixpoint digits_of (t : string) : string :=
  match t with
  | EmptyString => EmptyString
  | String c t' =>
      if isdigit c then String c (digits_of t') else digits_of t'
  end.

(** [s[:n]] *)
Fixpoint take (n : nat) (s : string) : string :=
  match n, s with
  | S n', String c s' => String c (take n' s')
  | _, _ => EmptyString
  end.

(** [s.lstrip()] *)
Fixpoint lstrip (s : string) : string :=
  match s with
  | EmptyString => EmptyString
  | String c s' => if isspace c then lstrip s' else s
  end.

(** [s.rstrip()] *)
Fixpoint rstrip (s : string) : string :=
  match s with
  | EmptyString => EmptyString
  | String c s' =>
      match rstrip s' with
      | EmptyString => if isspace c then EmptyString else String c EmptyString
      | r => String c r
      end
  end.

(** [s.strip()] *)
Definition strip (s : string) : string := rstrip (lstrip s).

(** Truth value of a string: empty is false. *)
Definition truthy (s : string) : bool :=
  match s with EmptyString => false | _ => true end.

(** [any(k in t for k in ks)] *)
Definition any_in (ks : list string) (t : string) : bool :=
  existsb (fun k => contains k t) ks.

(** The last character of a string, for the lemmas on [rstrip]. *)
Fixpoint last_char (s : string) : option ascii :=
  match s with
  | "" => None
  | String c "" => Some c
  | String _ s' => last_char s'
  end.

(** A word with a first and a last character, neither of them white
    space: what [strip] cannot cut into. *)
Definition solid (k : string) : bool :=
  match k with
  | String a _ => negb (isspace a)
  | "" => false
  end &&
  match last_char k with
  | Some c => negb (isspace c)
  | None => false
  end.

End PyStr.

(** ** Menu catalog *)

Record menu_option := {
  opt_message : string;
  opt_next : option string
}.

Record menu := {
  prompt : string;
  options : list (string * menu_option)
}.

Definition MENU_STRUCTURE : gmap string menu :=
  <["main" := {|
      prompt := "Welcome to Indian Railways Customer Support. You can say 'book ticket', 'train status' or 'refund'.";
      options := [
        ("booking", {| opt_message := "You selected Ticket Booking."; opt_next := Some "booking" |});
        ("train_status", {| opt_message := "You selected Train Status."; opt_next := Some "train_status" |});
        ("refund", {| opt_message := "You selected Refund Enquiry."; opt_next := Some "refund" |});
        ("agent", {| opt_message := "Connecting you to an agent."; opt_next := None |})
      ] |}]>
  (<["booking" := {|
      prompt := "Booking Menu. Say 'sleeper' or 'ac' or say 'back' to return.";
      options := [] |}]>
  (<["train_status" := {|
      prompt := "Please say or enter your 6-digit PNR number.";
      options := [] |}]>
  (<["refund" := {|
      prompt := "Refund Menu. Say 'cancelled' or 'tatkal' or say 'back' to return.";
      options := [] |}]> ∅))).

(** [MENU_STRUCTURE[m]["prompt"]]; the lookups in the source are all of the
    key ["main"], which is present, so the default is never taken. *)
Definition menu_prompt (m : string) : string :=
  match MENU_STRUCTURE !! m with
  | Some mn => prompt mn
  | None => ""
  end.

(** ** Intent classifier *)

Definition booking_reply : string :=
  "Sure — I can help with booking. Do you want Sleeper or AC class?".
Definition train_status_reply : string :=
  "Please tell me your 6-digit PNR number.".
Definition refund_reply : string :=
  "I can help with refunds. Is this for a cancelled train or a tatkal booking?".
Definition agent_reply : string :=
  "Okay — transferring you to an agent. Please hold.".

(** The f-string of the PNR rule. *)
Definition pnr_reply (pnr : string) : string :=
  "PNR " +:+ pnr +:+ " is CONFIRMED. Train AI101 from Mumbai to Delhi.".

Definition booking_keywords : list string :=
  ["book"; "ticket"; "booking"; "reserve"].
Definition train_status_keywords : list string :=
  ["status"; "pnr"; "flight status"; "train status"].
Definition refund_keywords : list string :=
  ["refund"; "cancel"; "tatkal"; "money back"].
Definition agent_keywords : list string :=
  ["agent"; "human"; "representative"; "help"].
Definition main_keywords : list string :=
  ["back"; "main"; "menu"].

(** [detect_intent] returns a pair [intent, message], or [None, None]; the
    pair of two [None]s is [None] here, any other pair is [Some]. *)
Definition detect_intent (text : string) : option (string * string) :=
  let t := PyStr.lower text in
  if PyStr.any_in booking_keywords t then
    Some ("booking", booking_reply)
  else if PyStr.any_in train_status_keywords t then
    Some ("train_status", train_status_reply)
  else if PyStr.any_in refund_keywords t then
    Some ("refund", refund_reply)
  else if PyStr.any_in agent_keywords t then
    Some ("agent", agent_reply)
  else if PyStr.any_in main_keywords t then
    Some ("main", menu_prompt "main")
  else
    let digits := PyStr.digits_of t in
    if (6 <=? String.length digits)%nat then
      let pnr := PyStr.take 6 digits in
      Some ("pnr_lookup", pnr_reply pnr)
    else None.

(** The keyword rules as a table, in the order of the [if]s. *)
Definition keyword_rules : list (list string * (string * string)) :=
  [ (booking_keywords, ("booking", booking_reply));
    (train_status_keywords, ("train_status", train_status_reply));
    (refund_keywords, ("refund", refund_reply));
    (agent_keywords, ("agent", agent_reply));
    (main_keywords, ("main", menu_prompt "main")) ].

(** The reply of the first rule of the table one of whose keywords occurs
    in [t]. *)
Definition first_match (t : string) : option (string * string) :=
  snd <$> List.find (fun r => PyStr.any_in r.1 t) keyword_rules.

(** ** Optional fallback *)

(** What the module sees of its surroundings: the value of the environment
    variable [OPENAI_API_KEY], and the [openai] module, [None] when its
    import failed. Of the module only [ChatCompletion.create] is used, with
    fixed arguments apart from the user's text; it is a function from that
    text to the content of the first choice, [None] when the call or the
    reading of its answer raises. *)
Record environment := {
  OPENAI_API_KEY : option string;
  openai : option (string -> option string)
}.

Definition openai_fallback (env : environment) (prompt : string)
  : option string :=
  match OPENAI_API_KEY env, openai env with
  | Some key, Some create =>
      if PyStr.truthy key then
        match create prompt with
        | Some content => Some (PyStr.strip content)
        | None => None
        end
      else None
  | _, _ => None
  end.

(** ** Requests, responses and the store *)

Record CallStart := { caller_number : string }.

Record ConversationRequest := {
  input_text : string;
  conv_call_id : option string
}.

Record DTMFInput := {
  dtmf_call_id : string;
  digit : string;
  dtmf_current_menu : option string
}.

(** A session dict. The key ["end_time"] is absent until the call ends. *)
Record session := {
  call_id : string;
  s_caller_number : string;
  start_time : string;
  end_time : option string;
  current_menu : string;
  menu_path : list string;
  inputs : list string
}.

Definition set_inputs (l : list string) (s : session) : session :=
  {| call_id := call_id s; s_caller_number := s_caller_number s;
     start_time := start_time s; end_time := end_time s;
     current_menu := current_menu s; menu_path := menu_path s;
     inputs := l |}.

Definition set_end_time (t : string) (s : session) : session :=
  {| call_id := call_id s; s_caller_number := s_caller_number s;
     start_time := start_time s; end_time := Some t;
     current_menu := current_menu s; menu_path := menu_path s;
     inputs := inputs s |}.

Definition set_current_menu (m : string) (s : session) : session :=
  {| call_id := call_id s; s_caller_number := s_caller_number s;
     start_time := start_time s; end_time := end_time s;
     current_menu := m; menu_path := menu_path s;
     inputs := inputs s |}.

Definition set_menu_path (p : list string) (s : session) : session :=
  {| call_id := call_id s; s_caller_number := s_caller_number s;
     start_time := start_time s; end_time := end_time s;
     current_menu := current_menu s; menu_path := p;
     inputs := inputs s |}.

(** The two module-level containers. A session is reachable from
    [active_calls] under one key only, and [session.copy()] is taken just
    before that key is deleted, so the lists a copy shares with its session
    are never appended to again: values stand for the objects. *)
Record store := {
  active_calls : gmap string session;
  call_history : list session
}.

Definition init_store : store :=
  {| active_calls := ∅; call_history := [] |}.

Record start_response := {
  sr_call_id : string;
  sr_status : string;
  sr_prompt : string
}.

(** The dict returned by [handle_dtmf]; the transfer reply has no
    ["current_menu"] key. *)
Record dtmf_response := {
  dr_status : string;
  dr_message : string;
  dr_current_menu : option string
}.

Record conversation_response := {
  cr_intent : string;
  cr_message : string;
  cr_call_id : option string
}.

Record end_response := { er_status : string }.

(** A handler returns, or raises [HTTPException]. *)
Inductive outcome (A : Type) : Type :=
  | Return (a : A)
  | HTTPException (status_code : Z) (detail : string).
Arguments Return {A} a.
Arguments HTTPException {A} status_code detail.

(** ** Handlers *)

(** [start_call]: [rnd] is the value of [random.randint(100000, 999999)],
    [now] that of [datetime.utcnow().isoformat()]. *)
Definition start_call (rnd : Z) (now : string) (call : CallStart)
    (st : store) : store * start_response :=
  let cid := "CALL_" +:+ pretty rnd in
  let s := {| call_id := cid;
              s_caller_number := caller_number call;
              start_time := now;
              end_time := None;
              current_menu := "main";
              menu_path := ["main"];
              inputs := [] |} in
  ({| active_calls := <[cid := s]> (active_calls st);
      call_history := call_history st |},
   {| sr_call_id := cid; sr_status := "connected";
      sr_prompt := menu_prompt "main" |}).

(** The dict [mapping] of [handle_dtmf]. *)
Definition mapping : gmap string string :=
  <["1" := "booking"]> (<["2" := "train_status"]> (<["3" := "refund"]>
  (<["9" := "agent"]> (<["0" := "main"]> ∅)))).

(** One of the four menu branches of [handle_dtmf]: the session under
    [cid] gets [current_menu] set and [menu_path] extended. *)
Definition enter_menu (cid : string) (s : session) (m msg : string)
    (st : store) : store * outcome (option dtmf_response) :=
  let s' := set_menu_path (menu_path s ++ [m]) (set_current_menu m s) in
  ({| active_calls := <[cid := s']> (active_calls st);
      call_history := call_history st |},
   Return (Some {| dr_status := "ok"; dr_message := msg;
                   dr_current_menu := Some m |})).

(** [handle_dtmf]: [now] is read only on the agent branch. The last
    [else] is the end of the function body, where Python returns [None]. *)
Definition handle_dtmf (now : string) (inp : DTMFInput) (st : store)
  : store * outcome (option dtmf_response) :=
  let cid := dtmf_call_id inp in
  match active_calls st !! cid with
  | None => (st, HTTPException 404 "Call not found")
  | Some s0 =>
      let d := digit inp in
      let s := set_inputs (inputs s0 ++ [d]) s0 in
      let st1 := {| active_calls := <[cid := s]> (active_calls st);
                    call_history := call_history st |} in
      match mapping !! d with
      | None =>
          (st1, Return (Some {| dr_status := "invalid";
                                dr_message := "Invalid option. Try again.";
                                dr_current_menu := Some (current_menu s) |}))
      | Some intent =>
          if negb (PyStr.truthy intent) then
            (st1, Return (Some {| dr_status := "invalid";
                                  dr_message := "Invalid option. Try again.";
                                  dr_current_menu := Some (current_menu s) |}))
          else if String.eqb intent "agent" then
            let s' := set_end_time now s in
            ({| active_calls := delete cid (active_calls st1);
                call_history := call_history st1 ++ [s'] |},
             Return (Some {| dr_status := "transferred";
                             dr_message := "Transferring to agent...";
                             dr_current_menu := None |}))
          else if String.eqb intent "booking" then
            enter_menu cid s "booking"
              "You selected Booking. Do you want Sleeper or AC?" st1
          else if String.eqb intent "train_status" then
            enter_menu cid s "train_status"
              "Please enter your 6-digit PNR." st1
          else if String.eqb intent "refund" then
            enter_menu cid s "refund"
              "Refund menu. Say 'cancelled' or 'tatkal'." st1
          else if String.eqb intent "main" then
            enter_menu cid s "main" (menu_prompt "main") st1
          else (st1, Return None)
      end
  end.

(** The intents for which [conversation] moves the session. *)
Definition menu_intents : list string :=
  ["booking"; "train_status"; "refund"; "main"].

(** The session [conversation] attaches to a request: the one under the
    request's [call_id], when that is given, not empty, and a key. A
    session dict has keys, so the later test [if session:] asks only
    whether one is attached. *)
Definition attached (req : ConversationRequest) (st : store)
  : option (string * session) :=
  match conv_call_id req with
  | Some c =>
      if PyStr.truthy c then
        match active_calls st !! c with
        | Some s => Some (c, s)
        | None => None
        end
      else None
  | None => None
  end.

Definition help_msg : string :=
  "Sorry, I didn't get that. You can say 'book ticket', 'train status', or 'refund'.".

Definition conversation (env : environment) (req : ConversationRequest)
    (st : store) : store * conversation_response :=
  let text := PyStr.strip (input_text req) in
  let cid := conv_call_id req in
  let classified :=
    match detect_intent text with
    | Some (intent, message) =>
        if PyStr.truthy intent then Some (intent, message) else None
    | None => None
    end in
  match classified with
  | Some (intent, message) =>
      let st' :=
        match attached req st with
        | Some (c, s) =>
            if bool_decide (intent ∈ menu_intents) then
              let m := if negb (String.eqb intent "pnr_lookup")
                       then intent else current_menu s in
              let s' := set_menu_path (menu_path s ++ [intent])
                          (set_current_menu m s) in
              {| active_calls := <[c := s']> (active_calls st);
                 call_history := call_history st |}
            else st
        | None => st
        end in
      (st', {| cr_intent := intent; cr_message := message;
               cr_call_id := cid |})
  | None =>
      let ai_reply := openai_fallback env text in
      match ai_reply with
      | Some r =>
          if PyStr.truthy r then
            (st, {| cr_intent := "ai_fallback"; cr_message := r;
                    cr_call_id := cid |})
          else
            (st, {| cr_intent := "unknown"; cr_message := help_msg;
                    cr_call_id := cid |})
      | None =>
          (st, {| cr_intent := "unknown"; cr_message := help_msg;
                  cr_call_id := cid |})
      end
  end.

(** [end_call]: [now] is read only when the call is found. *)
Definition end_call (now : string) (cid : string) (st : store)
  : store * end_response :=
  match active_calls st !! cid with
  | None => (st, {| er_status := "not_found" |})
  | Some s =>
      let s' := set_end_time now s in
      ({| active_calls := delete cid (active_calls st);
          call_history := call_history st ++ [s'] |},
       {| er_status := "ended" |})
  end.

(** ** Reachable stores *)

(** One request served. The random draw of [start_call] lies in the range
    given to [random.randint]. *)
Inductive step : store -> store -> Prop :=
  | step_start rnd now call st :
      (100000 <= rnd <= 999999)%Z ->
      step st (start_call rnd now call st).1
  | step_dtmf now inp st :
      step st (handle_dtmf now inp st).1
  | step_conversation env req st :
      step st (conversation env req st).1
  | step_end now cid st :
      step st (end_call now cid st).1.

(** The stores the process can be in: the empty one at start-up, and those
    reached from it by serving requests. *)
Definition reachable : store -> Prop := rtc step init_store.

(** The invariant of the store. *)
Definition active_ok (st : store) : Prop :=
  forall cid s, active_calls st !! cid = Some s ->
    last (menu_path s) = Some (current_menu s).

Definition archive_ok (st : store) : Prop :=
  forall s, s ∈ call_history st -> is_Some (end_time s).

Definition store_inv (st : store) : Prop := active_ok st /\ archive_ok st.

(** A handler keeps the invariant when it takes every store that has it to
    one that has it. *)
Definition preserves (f : store -> store) : Prop :=
  forall st, store_inv st -> store_inv (f st).

(** The digits of [mapping] that lead to a menu, each with the menu it
    leads to and the message [handle_dtmf] answers with. *)
Definition dtmf_menu_table : list (string * (string * string)) :=
  [ ("1", ("booking", "You selected Booking. Do you want Sleeper or AC?"));
    ("2", ("train_status", "Please enter your 6-digit PNR."));
    ("3", ("refund", "Refund menu. Say 'cancelled' or 'tatkal'."));
    ("0", ("main", menu_prompt "main")) ].

(** The keys of [mapping]. *)
Definition mapped_digits : list string := ["1"; "2"; "3"; "9"; "0"].

(** The fallback is enabled when the credential is set and not empty. *)
Definition credential_configured (env : environment) : bool :=
  match OPENAI_API_KEY env with
  | Some key => PyStr.truthy key
  | None => false
  end.

(** ** Sample runs *)

Definition sample_caller : CallStart := {| caller_number := "9999999999" |}.

(** One call started, with the draw 123456. *)
Definition sample_started : store :=
  (start_call 123456 "2024-01-01T10:00:00" sample_caller init_store).1.

Definition sample_dtmf (d : string) : DTMFInput :=
  {| dtmf_call_id := "CALL_123456"; digit := d;
     dtmf_current_menu := Some "main" |}.

(** The same call after the caller pressed 1. *)
Definition sample_booking : store :=
  (handle_dtmf "2024-01-01T10:00:05" (sample_dtmf "1") sample_started).1.

Definition no_fallback : environment :=
  {| OPENAI_API_KEY := None; openai := None |}.

(** A credential, and a service that answers every text with the text
    itself between a greeting and white space. *)
Definition echo_fallback : environment :=
  {| OPENAI_API_KEY := Some "sk-test";
     openai := Some (fun prompt => Some ("  You said: " +:+ prompt +:+ " ")) |}.

(** ** The status endpoint and runs of requests *)

Record root_response := {
  rr_status : string;
  rr_active_calls : nat;
  rr_total_calls : nat
}.

(** [root]: [len(active_calls)] and [len(call_history)]. *)
Definition root (st : store) : root_response :=
  {| rr_status := "IVR Conversational Simulator Running";
     rr_active_calls := size (active_calls st);
     rr_total_calls := length (call_history st) |}.

(** A caller pressing the keys [ds] one after the other on the call
    [cid]: one [handle_dtmf] request per key, each served at time [now]. *)
Definition press (now cid : string) (ds : list string) (st : store) : store :=
  foldl (fun st d =>
           (handle_dtmf now {| dtmf_call_id := cid; digit := d;
                               dtmf_current_menu := None |} st).1)
        st ds.

(** [s'] is [s] later in the same call: the same caller and start, and a
    path and a log of inputs that only grew. *)
Definition extends (s s' : session) : Prop :=
  call_id s' = call_id s
  /\ s_caller_number s' = s_caller_number s
  /\ start_time s' = start_time s
  /\ menu_path s `prefix_of` menu_path s'
  /\ inputs s `prefix_of` inputs s'.

(** What became of a session of the active registry after a request:
    it is still there, later in the same call, or it is, stamped with an
    end time, the entry the request added to the archive. *)
Definition continued (st st' : store) (c : string) (s : session) : Prop :=
  (exists s', active_calls st' !! c = Some s' /\ extends s s')
  \/ (exists s', active_calls st' !! c = None
               /\ call_history st' = (call_history st ++ [s'])%list
               /\ extends s s' /\ is_Some (end_time s')).

(** The menus visited by a session are menus of the catalog, the first of
    them the main menu. *)
Definition path_ok (s : session) : Prop :=
  (exists p, menu_path s = "main" :: p)
  /\ Forall (fun m => is_Some (MENU_STRUCTURE !! m)) (menu_path s)
  /\ is_Some (MENU_STRUCTURE !! current_menu s).

(** A call id as [start_call] makes them. *)
Definition drawn_id (cid : string) : Prop :=
  exists n : Z, (100000 <= n <= 999999)%Z /\ cid = "CALL_" +:+ pretty n.

(** A session as the handlers leave it under the key [cid]. *)
Definition live_ok (cid : string) (s : session) : Prop :=
  call_id s = cid /\ drawn_id cid /\ end_time s = None /\ path_ok s.

(** A session as the handlers leave it in the archive. *)
Definition ended_ok (s : session) : Prop :=
  drawn_id (call_id s) /\ is_Some (end_time s) /\ path_ok s.

Definition store_wf (st : store) : Prop :=
  (forall cid s, active_calls st !! cid = Some s -> live_ok cid s)
  /\ (forall s, s ∈ call_history st -> ended_ok s).

(** The session after a key that leads to a menu. *)
Definition entered (d target : string) (s : session) : session :=
  {| call_id := call_id s; s_caller_number := s_caller_number s;
     start_time := start_time s; end_time := end_time s;
     current_menu := target;
     menu_path := menu_path s ++ [target];
     inputs := inputs s ++ [d] |}.

(** Every request for a known call is of one of three kinds. *)
Inductive dtmf_case (now : string) (inp : DTMFInput) (st : store)
    (s : session) : Prop :=
  | dtmf_invalid :
      digit inp ∉ mapped_digits ->
      handle_dtmf now inp st =
        ({| active_calls :=
              <[dtmf_call_id inp := set_inputs (inputs s ++ [digit inp]) s]>
                (active_calls st);
            call_history := call_history st |},
         Return (Some {| dr_status := "invalid";
                         dr_message := "Invalid option. Try again.";
                         dr_current_menu := Some (current_menu s) |})) ->
      dtmf_case now inp st s
  | dtmf_transfer :
      digit inp = "9" ->
      handle_dtmf now inp st =
        ({| active_calls := delete (dtmf_call_id inp) (active_calls st);
            call_history :=
              call_history st
              ++ [set_end_time now (set_inputs (inputs s ++ ["9"]) s)] |},
         Return (Some {| dr_status := "transferred";
                         dr_message := "Transferring to agent...";
                         dr_current_menu := None |})) ->
      dtmf_case now inp st s
  | dtmf_menu target msg :
      (digit inp, (target, msg)) ∈ dtmf_menu_table ->
      handle_dtmf now inp st =
        ({| active_calls :=
              <[dtmf_call_id inp := entered (digit inp) target s]>
                (active_calls st);
            call_history := call_history st |},
         Return (Some {| dr_status := "ok"; dr_message := msg;
                         dr_current_menu := Some target |})) ->
      dtmf_case now inp st s.

(** The intents [detect_intent] can return, and those [conversation] can
    answer with. *)
Definition classifier_intents : list string :=
  ["booking"; "train_status"; "refund"; "agent"; "main"; "pnr_lookup"].

Definition conversation_intents : list string :=
  classifier_intents ++ ["ai_fallback"; "unknown"].

(** All the characters of a string are digits. *)
Fixpoint all_digits (s : string) : bool :=
  match s with
  | EmptyString => true
  | String c s' => PyStr.isdigit c && all_digits s'
  end.

(** All the characters of a string are white space. *)
Fixpoint all_space (s : string) : bool :=
  match s with
  | EmptyString => true
  | String c s' => PyStr.isspace c && all_space s'
  end.

(** * Properties *)

(** ** Strings *)

Module PyStrFacts.
Import PyStr.

Lemma app_nil_l (t : string) : "" +:+ t = t.
Proof. reflexivity. Qed.

Lemma app_cons (c : ascii) (s t : string) :
  String c s +:+ t = String c (s +:+ t).
Proof. reflexivity. Qed.

Lemma prefix_nil (t : string) : String.prefix "" t = true.
Proof. by destruct t. Qed.

Lemma prefix_cons (a c : ascii) (k t : string) :
  String.prefix (String a k) (String c t)
  = bool_decide (a = c) && String.prefix k t.
Proof.
  simpl. destruct (ascii_dec a c) as [->|Hne].
  - by rewrite bool_decide_eq_true_2.
  - by rewrite bool_decide_eq_false_2.
Qed.

Lemma prefix_app (k t : string) : String.prefix k (k +:+ t) = true.
Proof.
  induction k as [|a k IH]; [apply prefix_nil|].
  rewrite app_cons, prefix_cons, IH. by rewrite bool_decide_eq_true_2.
Qed.

Lemma prefix_split (k t : string) :
  String.prefix k t = true -> exists post, t = k +:+ post.
Proof.
  revert t. induction k as [|a k IH]; intros t H.
  - by exists t.
  - destruct t as [|c t]; [done|].
    rewrite prefix_cons in H. apply andb_true_iff in H as [Hac Hk].
    apply bool_decide_eq_true in Hac as ->.
    destruct (IH _ Hk) as [post ->]. by exists post.
Qed.

Lemma contains_nil (k : string) : contains k "" = String.prefix k "".
Proof. unfold contains. apply orb_false_r. Qed.

Lemma contains_cons (k : string) (c : ascii) (t : string) :
  contains k (String c t) = String.prefix k (String c t) || contains k t.
Proof. reflexivity. Qed.

(** [contains] is Python's [in]: an occurrence somewhere in the text. *)
Lemma contains_spec (k t : string) :
  contains k t = true <-> exists pre post, t = pre +:+ k +:+ post.
Proof.
  split.
  - induction t as [|c t IH].
    + rewrite contains_nil. intros H.
      destruct (prefix_split _ _ H) as [post ->]. by exists "", post.
    + rewrite contains_cons. intros [H|H]%orb_true_iff.
      * destruct (prefix_split _ _ H) as [post ->]. by exists "", post.
      * destruct (IH H) as (pre & post & ->). by exists (String c pre), post.
  - intros (pre & post & ->). induction pre as [|c pre IH].
    + rewrite app_nil_l. destruct (k +:+ post) as [|c r] eqn:E.
      * by rewrite contains_nil, <- E, prefix_app.
      * by rewrite contains_cons, <- E, prefix_app.
    + rewrite app_cons, contains_cons, IH. apply orb_true_r.
Qed.

Lemma lower_app (s t : string) : lower (s +:+ t) = lower s +:+ lower t.
Proof.
  induction s as [|c s IH]; [done|].
  rewrite app_cons. simpl. by rewrite IH.
Qed.

Lemma lower_char_idem (c : ascii) : lower_char (lower_char c) = lower_char c.
Proof. by destruct c as [[] [] [] [] [] [] [] []]. Qed.

Lemma lower_idem (s : string) : lower (lower s) = lower s.
Proof.
  induction s as [|c s IH]; [done|]. simpl. by rewrite lower_char_idem, IH.
Qed.

Lemma isdigit_lower_char (c : ascii) : isdigit (lower_char c) = isdigit c.
Proof. by destruct c as [[] [] [] [] [] [] [] []]. Qed.

Lemma isdigit_fixed (c : ascii) : isdigit c = true -> lower_char c = c.
Proof. by destruct c as [[] [] [] [] [] [] [] []]. Qed.

Lemma isspace_not_digit (c : ascii) : isspace c = true -> isdigit c = false.
Proof. by destruct c as [[] [] [] [] [] [] [] []]. Qed.

Lemma isspace_lower_char (c : ascii) : isspace c = true -> lower_char c = c.
Proof. by destruct c as [[] [] [] [] [] [] [] []]. Qed.

Lemma isspace_lower_char_inv (c : ascii) :
  isspace (lower_char c) = isspace c.
Proof. by destruct c as [[] [] [] [] [] [] [] []]. Qed.

(** Lower-casing moves no digit: the PNR rule sees the digits of the text
    as typed. *)
Lemma digits_of_lower (t : string) : digits_of (lower t) = digits_of t.
Proof.
  induction t as [|c t IH]; [done|]. simpl.
  rewrite isdigit_lower_char. destruct (isdigit c) eqn:E; [|done].
  by rewrite (isdigit_fixed _ E), IH.
Qed.

(** *** Stripping

    [conversation] classifies the stripped text. No keyword of the rules
    begins or ends with white space, and no white space is a digit, so the
    rules cannot tell the stripped text from the text. *)

Lemma lstrip_cons (c : ascii) (s : string) :
  lstrip (String c s) = if isspace c then lstrip s else String c s.
Proof. reflexivity. Qed.

Lemma rstrip_cons (c : ascii) (s : string) :
  rstrip (String c s) =
  match rstrip s with
  | "" => if isspace c then "" else String c ""
  | r => String c r
  end.
Proof. reflexivity. Qed.

Lemma lower_lstrip (s : string) : lower (lstrip s) = lstrip (lower s).
Proof.
  induction s as [|c s IH]; [done|].
  rewrite lstrip_cons. cbn [lower]. rewrite lstrip_cons, isspace_lower_char_inv.
  by destruct (isspace c).
Qed.

Lemma lower_rstrip (s : string) : lower (rstrip s) = rstrip (lower s).
Proof.
  induction s as [|c s IH]; [done|].
  cbn [lower]. rewrite !rstrip_cons, <- IH, isspace_lower_char_inv.
  destruct (rstrip s); [by destruct (isspace c)|done].
Qed.

Lemma lower_strip (s : string) : lower (strip s) = strip (lower s).
Proof. unfold strip. by rewrite lower_rstrip, lower_lstrip. Qed.

Lemma digits_of_lstrip (s : string) : digits_of (lstrip s) = digits_of s.
Proof.
  induction s as [|c s IH]; [done|].
  rewrite lstrip_cons. destruct (isspace c) eqn:E; [|done].
  cbn [digits_of]. by rewrite (isspace_not_digit _ E).
Qed.

Lemma digits_of_rstrip (s : string) : digits_of (rstrip s) = digits_of s.
Proof.
  induction s as [|c s IH]; [done|].
  rewrite rstrip_cons. cbn [digits_of]. rewrite <- IH.
  destruct (rstrip s); [|done].
  destruct (isspace c) eqn:E; [|done].
  by rewrite (isspace_not_digit _ E).
Qed.

Lemma digits_of_strip (s : string) : digits_of (strip s) = digits_of s.
Proof. unfold strip. by rewrite digits_of_rstrip, digits_of_lstrip. Qed.

Lemma prefix_rstrip (k s : string) (c : ascii) :
  last_char k = Some c -> isspace c = false ->
  String.prefix k (rstrip s) = String.prefix k s.
Proof.
  intros Hk Hc. revert s. induction k as [|a k IH]; intros s; [done|].
  destruct s as [|b s]; [done|].
  rewrite rstrip_cons. destruct k as [|a' k'].
  - injection Hk as ->.
    destruct (rstrip s); [|by rewrite !prefix_cons, !prefix_nil].
    destruct (isspace b) eqn:Eb; [|by rewrite !prefix_cons, !prefix_nil].
    rewrite prefix_cons, bool_decide_eq_false_2; [done|congruence].
  - specialize (IH Hk s). rewrite (prefix_cons _ _ _ s), <- IH.
    destruct (rstrip s); [|by rewrite prefix_cons].
    destruct (isspace b); [by rewrite andb_false_r|].
    by rewrite prefix_cons.
Qed.

Lemma contains_rstrip (k s : string) (c : ascii) :
  last_char k = Some c -> isspace c = false ->
  contains k (rstrip s) = contains k s.
Proof.
  intros Hk Hc. induction s as [|b s IH]; [done|].
  rewrite (contains_cons _ _ s), <- IH,
    <- (prefix_rstrip k (String b s) c Hk Hc), rstrip_cons.
  destruct (rstrip s); [|by rewrite contains_cons].
  destruct (isspace b).
  - rewrite contains_nil. by destruct (String.prefix k "").
  - by rewrite contains_cons.
Qed.

Lemma contains_lstrip (k s : string) (a : ascii) :
  isspace a = false ->
  contains (String a k) (lstrip s) = contains (String a k) s.
Proof.
  intros Ha. induction s as [|b s IH]; [done|].
  rewrite lstrip_cons. destruct (isspace b) eqn:Eb; [|done].
  rewrite contains_cons, prefix_cons, bool_decide_eq_false_2; [done|congruence].
Qed.

Lemma contains_strip (k s : string) :
  solid k = true -> contains k (strip s) = contains k s.
Proof.
  unfold solid, strip. intros [Hf Hl]%andb_true_iff.
  destruct (last_char k) as [c|] eqn:Ek; [|done].
  apply negb_true_iff in Hl. rewrite (contains_rstrip _ _ _ Ek Hl).
  destruct k as [|a k]; [done|].
  apply negb_true_iff in Hf. by apply contains_lstrip.
Qed.

Lemma any_in_strip (ks : list string) (s : string) :
  forallb solid ks = true -> any_in ks (strip s) = any_in ks s.
Proof.
  unfold any_in. induction ks as [|k ks IH]; [done|].
  cbn [forallb existsb]. intros [Hk Hks]%andb_true_iff.
  by rewrite (contains_strip _ _ Hk), (IH Hks).
Qed.

End PyStrFacts.

(** ** The classifier *)

Section Classifier.
Import PyStr PyStrFacts.

(** Stripping the text, as [conversation] does, changes no verdict. *)
Lemma detect_intent_strip (text : string) :
  detect_intent (strip text) = detect_intent text.
Proof.
  unfold detect_intent.
  rewrite lower_strip, !any_in_strip, digits_of_strip by reflexivity.
  reflexivity.
Qed.

(** Every reply has an intent that is not the empty string. *)
Lemma detect_intent_truthy (text i m : string) :
  detect_intent text = Some (i, m) -> truthy i = true.
Proof.
  unfold detect_intent. intros H.
  repeat (case_match; simplify_eq; try done).
Qed.

Lemma any_in_true (ks : list string) (k t : string) :
  k ∈ ks -> contains k t = true -> any_in ks t = true.
Proof.
  intros Hk Hc. apply existsb_exists. exists k. split; [|done].
  by apply list_elem_of_In.
Qed.

Lemma booking_keywords_lower (k : string) :
  k ∈ booking_keywords -> lower k = k.
Proof.
  unfold booking_keywords. rewrite !elem_of_cons, elem_of_nil.
  intros [->|[->|[->|[->|[]]]]]; reflexivity.
Qed.

Lemma contains_lower (k t : string) :
  lower k = k -> contains k t = true -> contains k (lower t) = true.
Proof.
  intros Hk (pre & post & ->)%contains_spec. apply contains_spec.
  exists (lower pre), (lower post). by rewrite !lower_app, Hk.
Qed.

(** C2. The classifier is a function of the text alone, and its rules are
    tried in order, the first that matches giving the reply: its verdict
    is the reply of the first keyword rule matching the lower-cased text,
    and the PNR rule is consulted only when none matches. So any text in
    which one of "book", "ticket", "booking", "reserve" occurs, as typed or
    after lower-casing, is classified as booking whatever digits it holds:
    "book a ticket, PNR 123456", which has six digits, is booking, while
    "123456" alone is pnr_lookup with the PNR 123456 in its reply. *)
Theorem detect_intent_first_match_wins :
  (forall text,
     detect_intent text =
     match first_match (lower text) with
     | Some reply => Some reply
     | None =>
         if (6 <=? String.length (digits_of (lower text)))%nat
         then Some ("pnr_lookup", pnr_reply (take 6 (digits_of (lower text))))
         else None
     end) /\
  (forall text k,
     k ∈ booking_keywords ->
     contains k text = true \/ contains k (lower text) = true ->
     detect_intent text = Some ("booking", booking_reply)) /\
  (6 <= String.length (digits_of "book a ticket, PNR 123456")
   /\ detect_intent "book a ticket, PNR 123456"
      = Some ("booking", booking_reply)) /\
  detect_intent "123456" = Some ("pnr_lookup", pnr_reply "123456").
Proof.
  split; [|split; [|split; [split|]]].
  - intros text. unfold detect_intent, first_match, keyword_rules.
    cbn [List.find fst snd].
    repeat (destruct (any_in _ (lower text)); [reflexivity|]).
    reflexivity.
  - intros text k Hk Hin.
    assert (contains k (lower text) = true) as Hc.
    { destruct Hin as [Hin|Hin]; [|done].
      apply contains_lower; [by apply booking_keywords_lower|done]. }
    unfold detect_intent. by rewrite (any_in_true _ _ _ Hk Hc).
  - vm_compute. lia.
  - reflexivity.
  - reflexivity.
Qed.

Lemma detect_intent_first_match_wins_witness :
  detect_intent "Please RESERVE seat 9876543 for me"
  = Some ("booking", booking_reply).
Proof.
  apply (proj1 (proj2 detect_intent_first_match_wins)
           "Please RESERVE seat 9876543 for me" "reserve").
  - unfold booking_keywords. rewrite !elem_of_cons. tauto.
  - right. reflexivity.
Defined.

End Classifier.

(** ** The store *)

(** What the handlers do to the two containers comes down to a lookup
    after an insert or a delete, and to the end of an extended list. *)
Create HintDb ivr.
#[export] Hint Extern 1 (<[_ := _]> _ !! _ = Some _) =>
  apply lookup_insert_eq : ivr.
#[export] Hint Extern 1 (delete _ _ !! _ = None) =>
  apply lookup_delete_eq : ivr.
#[export] Hint Resolve last_snoc : ivr.

Section Store.
Import PyStr.

Implicit Types (st : store) (s : session) (cid now : string).

(** *** Building blocks of the invariant *)

Lemma active_ok_insert st cid s h :
  active_ok st ->
  last (menu_path s) = Some (current_menu s) ->
  active_ok {| active_calls := <[cid := s]> (active_calls st);
               call_history := h |}.
Proof.
  intros Hst Hs c s'. cbn [active_calls]. rewrite lookup_insert.
  case_decide; [by intros [= <-]|apply Hst].
Qed.

Lemma active_ok_delete st cid h :
  active_ok st ->
  active_ok {| active_calls := delete cid (active_calls st);
               call_history := h |}.
Proof.
  intros Hst c s'. cbn [active_calls]. rewrite lookup_delete.
  case_decide; [done|apply Hst].
Qed.

Lemma archive_ok_same st m :
  archive_ok st ->
  archive_ok {| active_calls := m; call_history := call_history st |}.
Proof. done. Qed.

Lemma archive_ok_snoc st m s :
  archive_ok st -> is_Some (end_time s) ->
  archive_ok {| active_calls := m; call_history := call_history st ++ [s] |}.
Proof.
  intros Hst Hs s'. cbn [call_history].
  rewrite elem_of_app, list_elem_of_singleton. intros [?| ->]; auto.
Qed.

Lemma store_inv_enter_menu st cid s0 m msg :
  store_inv st ->
  store_inv (enter_menu cid s0 m msg st).1.
Proof.
  intros [Ha Hh]. unfold enter_menu. cbn [fst]. split.
  - apply active_ok_insert;
      cbn [menu_path current_menu set_menu_path set_current_menu];
      auto with ivr.
  - by apply archive_ok_same.
Qed.

Lemma store_inv_log_input st cid s0 d :
  store_inv st -> active_calls st !! cid = Some s0 ->
  store_inv {| active_calls :=
                 <[cid := set_inputs (inputs s0 ++ [d]) s0]> (active_calls st);
               call_history := call_history st |}.
Proof.
  intros [Ha Hh] Hs. split.
  - apply active_ok_insert; [done|]. exact (Ha _ _ Hs).
  - by apply archive_ok_same.
Qed.

(** *** Each handler keeps the invariant *)

Lemma start_call_inv rnd now call st :
  store_inv st -> store_inv (start_call rnd now call st).1.
Proof.
  intros [Ha Hh]. unfold start_call. cbn [fst]. split.
  - by apply active_ok_insert.
  - by apply archive_ok_same.
Qed.

Lemma handle_dtmf_inv now inp st :
  store_inv st -> store_inv (handle_dtmf now inp st).1.
Proof.
  intros Hst. unfold handle_dtmf.
  destruct (active_calls st !! dtmf_call_id inp) as [s0|] eqn:Hs; [|done].
  pose proof (store_inv_log_input _ _ _ (digit inp) Hst Hs) as Hst1.
  destruct (mapping !! digit inp) as [intent|]; [|done].
  destruct (negb (truthy intent)); [done|].
  destruct (String.eqb intent "agent").
  { destruct Hst1 as [Ha Hh]. cbn [fst]. split.
    - by apply active_ok_delete.
    - apply archive_ok_snoc; [done|]. by eexists. }
  repeat (destruct (String.eqb intent _);
          [by apply store_inv_enter_menu|]).
  done.
Qed.

Lemma conversation_inv env req st :
  store_inv st -> store_inv (conversation env req st).1.
Proof.
  intros Hst. unfold conversation.
  destruct (detect_intent _) as [[intent message]|]; cycle 1.
  { by repeat case_match. }
  destruct (truthy intent); cycle 1.
  { by repeat case_match. }
  cbn [fst]. destruct (attached req st) as [[c s]|]; [|done].
  case_bool_decide as Hin; [|done].
  destruct Hst as [Ha Hh]. split; [|by apply archive_ok_same].
  apply active_ok_insert; [done|]. cbn [set_menu_path set_current_menu
    menu_path current_menu]. rewrite last_snoc.
  unfold menu_intents in Hin.
  rewrite !elem_of_cons, elem_of_nil in Hin.
  by destruct Hin as [->|[->|[->|[->|[]]]]].
Qed.

Lemma end_call_inv now cid st :
  store_inv st -> store_inv (end_call now cid st).1.
Proof.
  intros [Ha Hh]. unfold end_call.
  destruct (active_calls st !! cid) as [s|]; [|done].
  cbn [fst]. split; [by apply active_ok_delete|].
  apply archive_ok_snoc; [done|]. by eexists.
Qed.

Lemma step_inv st st' : step st st' -> store_inv st -> store_inv st'.
Proof.
  destruct 1; auto using start_call_inv, handle_dtmf_inv, conversation_inv,
    end_call_inv.
Qed.

Lemma init_store_inv : store_inv init_store.
Proof.
  split.
  - intros c s. cbn. by rewrite lookup_empty.
  - intros s. cbn. by rewrite elem_of_nil.
Qed.

(** C1. In every store the process can reach, each session of the active
    registry has [current_menu] equal to the last element of its
    [menu_path], and each session of the archive has an [end_time]; and
    each of [start_call], [handle_dtmf], [conversation] and [end_call],
    whatever its arguments, takes a store with this property to one with
    it. *)
Theorem store_invariant :
  (forall st, reachable st -> store_inv st) /\
  (forall rnd now call, preserves (fun st => (start_call rnd now call st).1)) /\
  (forall now inp, preserves (fun st => (handle_dtmf now inp st).1)) /\
  (forall env req, preserves (fun st => (conversation env req st).1)) /\
  (forall now cid, preserves (fun st => (end_call now cid st).1)).
Proof.
  refine (conj _ (conj _ (conj _ (conj _ _)))); unfold preserves.
  - intros st Hr. unfold reachable in Hr.
    eapply (rtc_ind_r store_inv); [apply init_store_inv| |exact Hr].
    intros y z _ Hstep Hy. by eapply step_inv.
  - intros. by apply start_call_inv.
  - intros. by apply handle_dtmf_inv.
  - intros. by apply conversation_inv.
  - intros. by apply end_call_inv.
Qed.

Lemma sample_booking_reachable : reachable sample_booking.
Proof.
  unfold reachable.
  apply (rtc_r _ sample_started);
    [apply (rtc_r _ init_store); [apply rtc_refl|]|].
  - unfold sample_started. apply step_start. lia.
  - unfold sample_booking. apply step_dtmf.
Defined.

Lemma store_invariant_witness :
  store_inv sample_booking /\
  store_inv (end_call "2024-01-01T10:01:00" "CALL_123456" sample_booking).1.
Proof.
  pose proof (proj1 store_invariant _ sample_booking_reachable) as H.
  split; [exact H|].
  exact (proj2 (proj2 (proj2 (proj2 store_invariant))) _ _ _ H).
Defined.

(** *** The digit map *)

Lemma mapping_unmapped (d : string) :
  d ∉ mapped_digits <-> mapping !! d = None.
Proof.
  unfold mapped_digits, mapping. split.
  - rewrite !not_elem_of_cons. intros (?&?&?&?&?&_).
    by rewrite !lookup_insert_ne, lookup_empty.
  - intros Hd. rewrite !elem_of_cons, elem_of_nil.
    intros [->|[->|[->|[->|[->|[]]]]]]; by vm_compute in Hd.
Qed.

Lemma mapping_menu_digit (d target msg : string) :
  (d, (target, msg)) ∈ dtmf_menu_table ->
  mapping !! d = Some target /\ target ∈ menu_intents.
Proof.
  unfold dtmf_menu_table, menu_intents.
  rewrite !elem_of_cons, elem_of_nil.
  intros [[= -> -> ->]|[[= -> -> ->]|[[= -> -> ->]|[[= -> -> ->]|[]]]]];
    (split; [reflexivity|auto 6]).
Qed.

(** The session as [handle_dtmf] leaves it on a menu digit. *)
Lemma enter_menu_eq cid s m msg st :
  enter_menu cid s m msg st =
  ({| active_calls :=
        <[cid := {| call_id := call_id s;
                    s_caller_number := s_caller_number s;
                    start_time := start_time s;
                    end_time := end_time s;
                    current_menu := m;
                    menu_path := menu_path s ++ [m];
                    inputs := inputs s |}]> (active_calls st);
      call_history := call_history st |},
   Return (Some {| dr_status := "ok"; dr_message := msg;
                   dr_current_menu := Some m |})).
Proof. reflexivity. Qed.

(** C3, amended. For a session of the active registry and each of the
    digits 1, 2, 3 and 0, [handle_dtmf], from any current menu, sets
    [current_menu] to the digit's menu, appends that menu to [menu_path]
    (and the digit to [inputs]), leaves the rest of the store as it was, and
    answers with status "ok", the menu, and the message [handle_dtmf] itself
    fixes for the digit; for 0 that message is the prompt of the main menu
    in the catalog. *)
Theorem handle_dtmf_menu_digit now inp st s target msg :
  active_calls st !! dtmf_call_id inp = Some s ->
  (digit inp, (target, msg)) ∈ dtmf_menu_table ->
  handle_dtmf now inp st =
  ({| active_calls :=
        <[dtmf_call_id inp :=
            {| call_id := call_id s;
               s_caller_number := s_caller_number s;
               start_time := start_time s;
               end_time := end_time s;
               current_menu := target;
               menu_path := menu_path s ++ [target];
               inputs := inputs s ++ [digit inp] |}]> (active_calls st);
      call_history := call_history st |},
   Return (Some {| dr_status := "ok"; dr_message := msg;
                   dr_current_menu := Some target |}))
  /\ (target = "main" ->
      exists mn, MENU_STRUCTURE !! "main" = Some mn /\ msg = prompt mn).
Proof.
  intros Hs Hd. split.
  - destruct (mapping_menu_digit _ _ _ Hd) as [Hm _].
    unfold handle_dtmf. rewrite Hs, Hm.
    revert Hd. unfold dtmf_menu_table. rewrite !elem_of_cons, elem_of_nil.
    intros [[= _ -> ->]|[[= _ -> ->]|[[= _ -> ->]|[[= _ -> ->]|[]]]]];
      cbn [truthy negb String.eqb Ascii.eqb Bool.eqb];
      rewrite enter_menu_eq; cbn [active_calls call_history];
      by rewrite insert_insert_eq.
  - intros ->. revert Hd. unfold dtmf_menu_table.
    rewrite !elem_of_cons, elem_of_nil.
    intros [[= _ ?]|[[= _ ?]|[[= _ ?]|[[= _ ->]|[]]]]]; try done.
    by eexists.
Qed.

Lemma handle_dtmf_menu_digit_witness :
  (handle_dtmf "2024-01-01T10:00:05" (sample_dtmf "1") sample_started).2
  = Return (Some {| dr_status := "ok";
                    dr_message := "You selected Booking. Do you want Sleeper or AC?";
                    dr_current_menu := Some "booking" |}).
Proof.
  eassert (active_calls sample_started !! dtmf_call_id (sample_dtmf "1")
           = Some _) as Hs by reflexivity.
  assert ((digit (sample_dtmf "1"),
           ("booking", "You selected Booking. Do you want Sleeper or AC?"))
          ∈ dtmf_menu_table) as Hd by (unfold dtmf_menu_table; apply elem_of_cons; by left).
  by rewrite (proj1 (handle_dtmf_menu_digit "2024-01-01T10:00:05"
                       _ _ _ _ _ Hs Hd)).
Defined.

(** C3, as stated, fails: the message answered to the digit 1 is not the
    prompt the catalog has for the booking menu. *)
Lemma handle_dtmf_reply_not_catalog_prompt :
  exists r mn,
    (handle_dtmf "2024-01-01T10:00:05" (sample_dtmf "1") sample_started).2
    = Return (Some r)
    /\ dr_status r = "ok"
    /\ dr_current_menu r = Some "booking"
    /\ MENU_STRUCTURE !! "booking" = Some mn
    /\ dr_message r ≠ prompt mn.
Proof.
  do 2 eexists. split; [reflexivity|].
  split; [reflexivity|]. split; [reflexivity|]. split; [reflexivity|].
  discriminate.
Qed.

(** *** Unmapped digits *)

Lemma mapping_agent (d : string) : mapping !! d = Some "agent" -> d = "9".
Proof.
  unfold mapping. rewrite !lookup_insert, lookup_empty.
  repeat case_decide; congruence.
Qed.

Lemma handle_dtmf_unmapped_eq now inp st s :
  active_calls st !! dtmf_call_id inp = Some s ->
  digit inp ∉ mapped_digits ->
  handle_dtmf now inp st =
    ({| active_calls :=
          <[dtmf_call_id inp := set_inputs (inputs s ++ [digit inp]) s]>
            (active_calls st);
        call_history := call_history st |},
     Return (Some {| dr_status := "invalid";
                     dr_message := "Invalid option. Try again.";
                     dr_current_menu := Some (current_menu s) |})).
Proof.
  intros Hs Hd. apply mapping_unmapped in Hd.
  unfold handle_dtmf. by rewrite Hs, Hd.
Qed.

Lemma handle_dtmf_agent_eq now inp st s :
  active_calls st !! dtmf_call_id inp = Some s ->
  digit inp = "9" ->
  handle_dtmf now inp st =
    ({| active_calls := delete (dtmf_call_id inp) (active_calls st);
        call_history :=
          call_history st
          ++ [set_end_time now (set_inputs (inputs s ++ ["9"]) s)] |},
     Return (Some {| dr_status := "transferred";
                     dr_message := "Transferring to agent...";
                     dr_current_menu := None |})).
Proof.
  intros Hs Hd. unfold handle_dtmf. rewrite Hs, Hd.
  change (mapping !! "9") with (Some "agent").
  cbn [truthy negb String.eqb Ascii.eqb Bool.eqb active_calls call_history].
  by rewrite delete_insert_eq.
Qed.

(** C4, amended. For a session of the active registry and a digit that is
    not a key of the digit map, [handle_dtmf] answers with status "invalid",
    the retry message and the session's current menu, and changes nothing
    but the session's [inputs], to which the digit is appended: the
    session's [current_menu] and [menu_path], the other sessions, the keys
    of the active registry and the archive are as before. *)
Theorem handle_dtmf_unmapped_digit now inp st s :
  active_calls st !! dtmf_call_id inp = Some s ->
  digit inp ∉ mapped_digits ->
  let s' := set_inputs (inputs s ++ [digit inp]) s in
  let st' := (handle_dtmf now inp st).1 in
  handle_dtmf now inp st =
    ({| active_calls := <[dtmf_call_id inp := s']> (active_calls st);
        call_history := call_history st |},
     Return (Some {| dr_status := "invalid";
                     dr_message := "Invalid option. Try again.";
                     dr_current_menu := Some (current_menu s) |}))
  /\ active_calls st' !! dtmf_call_id inp = Some s'
  /\ current_menu s' = current_menu s
  /\ menu_path s' = menu_path s
  /\ inputs s' = (inputs s ++ [digit inp])%list
  /\ (forall c, c ≠ dtmf_call_id inp ->
        active_calls st' !! c = active_calls st !! c)
  /\ dom (active_calls st') = dom (active_calls st)
  /\ call_history st' = call_history st.
Proof.
  intros Hs Hd s' st'.
  pose proof (handle_dtmf_unmapped_eq now _ _ _ Hs Hd) as E.
  subst s' st'. rewrite E. cbn [fst active_calls call_history].
  split_and!; try done.
  - auto with ivr.
  - intros c Hc. by rewrite lookup_insert_ne.
  - rewrite dom_insert_L. apply subseteq_union_1_L, singleton_subseteq_l.
    by eapply elem_of_dom_2.
Qed.

Lemma handle_dtmf_unmapped_digit_witness :
  (handle_dtmf "2024-01-01T10:00:09" (sample_dtmf "5") sample_booking).2
  = Return (Some {| dr_status := "invalid";
                    dr_message := "Invalid option. Try again.";
                    dr_current_menu := Some "booking" |}).
Proof.
  eassert (active_calls sample_booking !! dtmf_call_id (sample_dtmf "5")
           = Some _) as Hs by reflexivity.
  assert (digit (sample_dtmf "5") ∉ mapped_digits) as Hd.
  { unfold mapped_digits. rewrite !not_elem_of_cons. split_and!; try done.
    apply not_elem_of_nil. }
  by rewrite (proj1 (handle_dtmf_unmapped_digit "2024-01-01T10:00:09"
                       _ _ _ Hs Hd)).
Defined.

(** C4, as stated, fails: pressing 5 is answered with "invalid", and the
    session's [inputs], empty before, hold the 5 after; the active registry
    is not the one before. *)
Lemma handle_dtmf_invalid_changes_inputs :
  let r := handle_dtmf "2024-01-01T10:00:09" (sample_dtmf "5") sample_started in
  ("5" ∉ mapped_digits)
  /\ (exists m, r.2 = Return (Some {| dr_status := "invalid"; dr_message := m;
                                      dr_current_menu := Some "main" |}))
  /\ inputs <$> active_calls sample_started !! "CALL_123456" = Some []
  /\ inputs <$> active_calls r.1 !! "CALL_123456" = Some ["5"]
  /\ active_calls r.1 ≠ active_calls sample_started.
Proof.
  split_and!.
  - unfold mapped_digits. rewrite !not_elem_of_cons. split_and!; try done.
    apply not_elem_of_nil.
  - by eexists.
  - reflexivity.
  - reflexivity.
  - intros E.
    apply (f_equal (fun m => inputs <$> m !! "CALL_123456")) in E.
    vm_compute in E. discriminate.
Qed.

(** *** Starting a call *)

(** C5, amended. For every store, caller number, draw and time,
    [start_call] takes as call id "CALL_" followed by the draw in decimal,
    distinct for distinct draws, puts under it a new session with
    [current_menu] "main", [menu_path] ["main"] and no inputs, touching no
    other key and not the archive, and answers with that id, status
    "connected" and the prompt of the main menu of the catalog. The id may
    already be a key of the active registry; the session it held is then
    replaced. *)
Theorem start_call_spec rnd now call st :
  let cid := "CALL_" +:+ pretty rnd in
  let fresh := {| call_id := cid; s_caller_number := caller_number call;
                  start_time := now; end_time := None;
                  current_menu := "main"; menu_path := ["main"];
                  inputs := [] |} in
  let st' := (start_call rnd now call st).1 in
  (start_call rnd now call st).2
    = {| sr_call_id := cid; sr_status := "connected";
         sr_prompt := menu_prompt "main" |}
  /\ (exists mn, MENU_STRUCTURE !! "main" = Some mn
               /\ menu_prompt "main" = prompt mn)
  /\ active_calls st' !! cid = Some fresh
  /\ (forall c, c ≠ cid -> active_calls st' !! c = active_calls st !! c)
  /\ dom (active_calls st') = {[cid]} ∪ dom (active_calls st)
  /\ call_history st' = call_history st
  /\ (forall rnd' now' call' st0,
        sr_call_id (start_call rnd' now' call' st0).2 = cid -> rnd' = rnd).
Proof.
  intros cid fresh st'. subst st'. unfold start_call.
  cbn [fst snd active_calls call_history sr_call_id].
  split_and!; try done.
  - by eexists.
  - apply lookup_insert_eq.
  - intros c Hc. by rewrite lookup_insert_ne.
  - apply dom_insert_L.
  - intros rnd' _ _ _ E. subst cid.
    apply (inj (String.app "CALL_")) in E. by apply (inj pretty) in E.
Qed.

Lemma start_call_spec_witness :
  active_calls sample_started !! "CALL_7" = active_calls init_store !! "CALL_7".
Proof.
  apply (proj1 (proj2 (proj2 (proj2
    (start_call_spec 123456 "2024-01-01T10:00:00" sample_caller init_store))))).
  discriminate.
Defined.

(** C5, as stated, fails: after a call was started with the draw 100000,
    a store the process can reach, a second [start_call] with the same draw
    yields the id of the first, a key of the active registry, and replaces
    the first caller's session. *)
Lemma start_call_id_collision :
  let st := (start_call 100000 "2024-01-01T10:00:00"
               {| caller_number := "111" |} init_store).1 in
  let r := start_call 100000 "2024-01-01T10:00:30"
             {| caller_number := "222" |} st in
  reachable st
  /\ sr_call_id r.2 ∈ dom (active_calls st)
  /\ s_caller_number <$> active_calls st !! sr_call_id r.2 = Some "111"
  /\ s_caller_number <$> active_calls r.1 !! sr_call_id r.2 = Some "222".
Proof.
  split_and!.
  - apply (rtc_r _ init_store); [apply rtc_refl|]. apply step_start. lia.
  - apply elem_of_dom. by eexists.
  - reflexivity.
  - reflexivity.
Qed.

(** *** Ending a call *)

(** C6. For a session of the active registry, [handle_dtmf] with the digit
    9 archives it: its key leaves the active registry, no other key is
    touched, a copy of the session stamped with [end_time] (and with the 9
    among its inputs) becomes the last element of the archive, whose
    earlier elements stay, and the answer has status "transferred". *)
Theorem handle_dtmf_agent_archives now inp st s :
  active_calls st !! dtmf_call_id inp = Some s ->
  digit inp = "9" ->
  let snapshot := set_end_time now (set_inputs (inputs s ++ ["9"]) s) in
  let st' := (handle_dtmf now inp st).1 in
  (handle_dtmf now inp st).2
    = Return (Some {| dr_status := "transferred";
                      dr_message := "Transferring to agent...";
                      dr_current_menu := None |})
  /\ active_calls st' = delete (dtmf_call_id inp) (active_calls st)
  /\ active_calls st' !! dtmf_call_id inp = None
  /\ call_history st' = (call_history st ++ [snapshot])%list
  /\ snapshot ∈ call_history st'
  /\ end_time snapshot = Some now.
Proof.
  intros Hs Hd snapshot st'. subst st'.
  rewrite (handle_dtmf_agent_eq now _ _ _ Hs Hd).
  cbn [fst snd active_calls call_history]. split_and!; try done.
  - apply lookup_delete_eq.
  - apply elem_of_app. right. by apply list_elem_of_singleton.
Qed.

Lemma handle_dtmf_agent_archives_witness :
  active_calls
    (handle_dtmf "2024-01-01T10:02:00" (sample_dtmf "9") sample_booking).1
    !! "CALL_123456" = None.
Proof.
  eassert (active_calls sample_booking !! dtmf_call_id (sample_dtmf "9")
           = Some _) as Hs by reflexivity.
  exact (proj1 (proj2 (proj2
    (handle_dtmf_agent_archives "2024-01-01T10:02:00" _ _ _ Hs eq_refl)))).
Defined.

(** C8. [end_call] is total: it raises nothing. For a call id that is not
    a key of the active registry it answers "not_found" and leaves the
    store as it is; for one that is, it removes the key, appends the
    session stamped with [end_time] to the archive and answers "ended";
    ending the same call again is then answered "not_found". *)
Theorem end_call_spec now cid st :
  (active_calls st !! cid = None ->
     end_call now cid st = (st, {| er_status := "not_found" |}))
  /\ (forall s, active_calls st !! cid = Some s ->
       end_call now cid st =
       ({| active_calls := delete cid (active_calls st);
           call_history := call_history st ++ [set_end_time now s] |},
        {| er_status := "ended" |})
       /\ end_time (set_end_time now s) = Some now)
  /\ (forall now',
       end_call now' cid (end_call now cid st).1
       = ((end_call now cid st).1, {| er_status := "not_found" |})).
Proof.
  split_and!.
  - intros H. unfold end_call. by rewrite H.
  - intros s H. unfold end_call. by rewrite H.
  - intros now'.
    assert (active_calls (end_call now cid st).1 !! cid = None) as H.
    { unfold end_call. destruct (active_calls st !! cid) eqn:E; [|done].
      apply lookup_delete_eq. }
    unfold end_call at 1. by rewrite H.
Qed.

Lemma end_call_spec_witness :
  end_call "2024-01-01T10:03:00" "CALL_000000" sample_booking
  = (sample_booking, {| er_status := "not_found" |})
  /\ (end_call "2024-01-01T10:03:00" "CALL_123456" sample_booking).2
     = {| er_status := "ended" |}.
Proof.
  split.
  - by apply (proj1 (end_call_spec _ _ _)).
  - eassert (active_calls sample_booking !! "CALL_123456" = Some _) as Hs
      by reflexivity.
    by rewrite (proj1 (proj1 (proj2
         (end_call_spec "2024-01-01T10:03:00" _ _)) _ Hs)).
Defined.

(** *** The log of inputs *)

(** The session a request for [cid] leaves behind: the one under [cid] in
    the active registry, or, when the digit 9 ended the call, the last one
    of the archive. *)
Lemma handle_dtmf_session_after now inp st s :
  active_calls st !! dtmf_call_id inp = Some s ->
  let st' := (handle_dtmf now inp st).1 in
  exists s',
    (active_calls st' !! dtmf_call_id inp = Some s'
     \/ (digit inp = "9"
         /\ active_calls st' !! dtmf_call_id inp = None
         /\ last (call_history st') = Some s'))
    /\ inputs s' = (inputs s ++ [digit inp])%list.
Proof.
  intros Hs st'. subst st'. unfold handle_dtmf. rewrite Hs.
  set (s1 := set_inputs _ s).
  assert (forall m msg st1, exists s',
    active_calls (enter_menu (dtmf_call_id inp) s1 m msg st1).1
      !! dtmf_call_id inp = Some s'
    /\ inputs s' = (inputs s ++ [digit inp])%list) as Hmenu.
  { intros. eexists. rewrite enter_menu_eq. cbn [fst active_calls].
    split; [apply lookup_insert_eq|done]. }
  assert (exists s',
    active_calls {| active_calls := <[dtmf_call_id inp := s1]> (active_calls st);
                    call_history := call_history st |}
      !! dtmf_call_id inp = Some s'
    /\ inputs s' = (inputs s ++ [digit inp])%list) as Hlog.
  { exists s1. split; [apply lookup_insert_eq|done]. }
  destruct (mapping !! digit inp) as [intent|] eqn:Hm; cycle 1.
  { destruct Hlog as (s' & ? & ?). exists s'. auto. }
  destruct (negb (truthy intent)).
  { destruct Hlog as (s' & ? & ?). exists s'. auto. }
  destruct (String.eqb intent "agent") eqn:Hi.
  { apply String.eqb_eq in Hi as ->. apply mapping_agent in Hm.
    eexists. cbn [fst active_calls call_history]. split.
    - right. split_and!; auto with ivr.
    - done. }
  clear Hi.
  repeat (destruct (String.eqb intent _);
          [edestruct Hmenu as (? & ? & ?); eexists;
           split; [left; eassumption|eassumption]|]).
  destruct Hlog as (s' & ? & ?). exists s'. auto.
Qed.

(** C10. For a call id of the active registry and any digit string,
    [handle_dtmf] appends the digit to the session's [inputs], which so
    grow by exactly one. The session is then found under its id in the
    active registry, unless the digit was 9, when it is the last element
    of the archive. This holds also for a digit outside the digit map,
    which is answered with status "invalid". *)
Theorem handle_dtmf_logs_every_digit now inp st s :
  active_calls st !! dtmf_call_id inp = Some s ->
  let r := handle_dtmf now inp st in
  exists s',
    inputs s' = (inputs s ++ [digit inp])%list
    /\ length (inputs s') = S (length (inputs s))
    /\ (digit inp ≠ "9" -> active_calls r.1 !! dtmf_call_id inp = Some s')
    /\ (digit inp = "9" ->
         active_calls r.1 !! dtmf_call_id inp = None
         /\ last (call_history r.1) = Some s')
    /\ (digit inp ∉ mapped_digits ->
         exists m cm, r.2 = Return (Some {| dr_status := "invalid";
                                           dr_message := m;
                                           dr_current_menu := cm |})).
Proof.
  intros Hs r. subst r.
  destruct (handle_dtmf_session_after now _ _ _ Hs) as (s' & Hwhere & Hin).
  exists s'. split_and!.
  - done.
  - rewrite Hin, length_app. cbn. lia.
  - intros Hd. by destruct Hwhere as [?|[? _]].
  - intros Hd. destruct Hwhere as [Hl|(_ & ? & ?)]; [|done].
    rewrite (handle_dtmf_agent_eq now _ _ _ Hs Hd) in Hl.
    cbn [fst active_calls] in Hl. by rewrite lookup_delete_eq in Hl.
  - intros Hd. rewrite (handle_dtmf_unmapped_eq now _ _ _ Hs Hd).
    by do 2 eexists.
Qed.

Lemma handle_dtmf_logs_every_digit_witness :
  exists s',
    inputs s' = ["1"; "7"]
    /\ active_calls
         (handle_dtmf "2024-01-01T10:00:09" (sample_dtmf "7") sample_booking).1
         !! "CALL_123456" = Some s'.
Proof.
  eassert (active_calls sample_booking !! dtmf_call_id (sample_dtmf "7")
           = Some _) as Hs by reflexivity.
  destruct (handle_dtmf_logs_every_digit "2024-01-01T10:00:09" _ _ _ Hs)
    as (s' & Hin & _ & Hact & _).
  exists s'. split; [exact Hin|]. by apply Hact.
Defined.

End Store.

(** ** The text path *)

Section Conversation.
Import PyStr PyStrFacts.

Implicit Types (st : store) (req : ConversationRequest) (env : environment).

Lemma attached_Some req st c s :
  attached req st = Some (c, s) ->
  conv_call_id req = Some c /\ active_calls st !! c = Some s.
Proof.
  unfold attached. intros H. by repeat (case_match; simplify_eq).
Qed.

(** No call id in the request, or one that is not a key. *)
Lemma attached_None req st :
  conv_call_id req = None
  \/ (exists c, conv_call_id req = Some c /\ active_calls st !! c = None) ->
  attached req st = None.
Proof.
  unfold attached. intros [->|(c & -> & ->)]; [done|]. by case_match.
Qed.

Lemma openai_fallback_disabled env text :
  credential_configured env = false -> openai_fallback env text = None.
Proof.
  unfold credential_configured, openai_fallback.
  destruct (OPENAI_API_KEY env) as [key|]; [|done].
  intros ->. by destruct (openai env).
Qed.

(** The verdict is [None] exactly when no keyword rule matches and the
    text has fewer than six digits. *)
Lemma detect_intent_None text :
  detect_intent text = None <->
  (forall r, r ∈ keyword_rules -> any_in r.1 (lower text) = false)
  /\ String.length (digits_of text) < 6.
Proof.
  unfold detect_intent. rewrite digits_of_lower. split.
  - destruct (any_in booking_keywords _) eqn:?; [discriminate|].
    destruct (any_in train_status_keywords _) eqn:?; [discriminate|].
    destruct (any_in refund_keywords _) eqn:?; [discriminate|].
    destruct (any_in agent_keywords _) eqn:?; [discriminate|].
    destruct (any_in main_keywords _) eqn:?; [discriminate|].
    destruct (6 <=? _)%nat eqn:Hlen; [discriminate|]. intros _.
    apply Nat.leb_gt in Hlen. split; [|done].
    intros r. unfold keyword_rules. rewrite !elem_of_cons, elem_of_nil.
    intros [->|[->|[->|[->|[->|[]]]]]]; assumption.
  - intros [Hr Hlen].
    assert (forall ks reply, (ks, reply) ∈ keyword_rules ->
                             any_in ks (lower text) = false) as Hk.
    { intros ks reply Hin. exact (Hr _ Hin). }
    unfold keyword_rules in Hk.
    rewrite (Hk booking_keywords ("booking", booking_reply)),
      (Hk train_status_keywords ("train_status", train_status_reply)),
      (Hk refund_keywords ("refund", refund_reply)),
      (Hk agent_keywords ("agent", agent_reply)),
      (Hk main_keywords ("main", menu_prompt "main"))
      by (rewrite !elem_of_cons; auto 8).
    apply Nat.leb_gt in Hlen. by rewrite Hlen.
Qed.

(** What [conversation] does with a text the rules classify. *)
Lemma conversation_classified env req st i m :
  detect_intent (input_text req) = Some (i, m) ->
  conversation env req st =
  (match attached req st with
   | Some (c, s) =>
       if bool_decide (i ∈ menu_intents) then
         {| active_calls :=
              <[c := set_menu_path (menu_path s ++ [i])
                       (set_current_menu i s)]> (active_calls st);
            call_history := call_history st |}
       else st
   | None => st
   end,
   {| cr_intent := i; cr_message := m; cr_call_id := conv_call_id req |}).
Proof.
  intros Hd. unfold conversation.
  rewrite detect_intent_strip, Hd, (detect_intent_truthy _ _ _ Hd).
  f_equal. destruct (attached req st) as [[c s]|]; [|done].
  case_bool_decide as Hin; [|done].
  unfold menu_intents in Hin. rewrite !elem_of_cons, elem_of_nil in Hin.
  by destruct Hin as [->|[->|[->|[->|[]]]]].
Qed.

(** What it does with a text they do not. *)
Lemma conversation_unclassified env req st :
  detect_intent (input_text req) = None ->
  (conversation env req st).1 = st
  /\ cr_intent (conversation env req st).2 ∈ ["ai_fallback"; "unknown"]
  /\ cr_call_id (conversation env req st).2 = conv_call_id req.
Proof.
  intros Hd. unfold conversation. rewrite detect_intent_strip, Hd.
  destruct (openai_fallback env _) as [r|]; [destruct (truthy r)|];
    cbn [fst snd cr_intent cr_call_id]; rewrite !elem_of_cons; auto.
Qed.

(** C7. [conversation] never ends a call: the archive and the keys of the
    active registry are as before, whatever the text. It changes the store
    only when a session is attached to the request and the rules classify
    the text with one of the intents booking, train_status, refund, main.
    A classified text is always answered with its intent and message and
    the request's call id; when the intent is agent or pnr_lookup, and when
    no session is attached (no call id in the request, or one that is not a
    key of the active registry), the store is left as it is. *)
Theorem conversation_frame env req st :
  let r := conversation env req st in
  call_history r.1 = call_history st
  /\ dom (active_calls r.1) = dom (active_calls st)
  /\ (r.1 ≠ st ->
      exists c s, attached req st = Some (c, s)
        /\ cr_intent r.2 ∈ menu_intents
        /\ detect_intent (input_text req)
           = Some (cr_intent r.2, cr_message r.2))
  /\ (forall i m, detect_intent (input_text req) = Some (i, m) ->
        r.2 = {| cr_intent := i; cr_message := m;
                 cr_call_id := conv_call_id req |}
        /\ (i ∈ ["agent"; "pnr_lookup"] -> r.1 = st)
        /\ (attached req st = None -> r.1 = st))
  /\ (conv_call_id req = None
      \/ (exists c, conv_call_id req = Some c
                    /\ active_calls st !! c = None) ->
      r.1 = st).
Proof.
  intros r. subst r.
  destruct (detect_intent (input_text req)) as [[i m]|] eqn:Hd; cycle 1.
  { destruct (conversation_unclassified env req st Hd) as (E & _ & _).
    rewrite E. split_and!; try done. }
  rewrite (conversation_classified env req st i m Hd). cbn [fst snd].
  destruct (attached req st) as [[c s]|] eqn:Ha; cycle 1.
  { split_and!; try done. by intros i' m' [= <- <-]. }
  apply attached_Some in Ha as Hc. destruct Hc as [Hc Hs].
  case_bool_decide as Hin.
  - cbn [call_history active_calls cr_intent cr_message]. split_and!.
    + done.
    + rewrite dom_insert_L. apply subseteq_union_1_L, singleton_subseteq_l.
      by eapply elem_of_dom_2.
    + intros _. by exists c, s.
    + intros i' m' [= <- <-]. split_and!; [done| |done].
      unfold menu_intents in Hin. rewrite !elem_of_cons, elem_of_nil in Hin.
      rewrite !elem_of_cons, elem_of_nil.
      intros [->|[->|[]]]; by destruct Hin as [?|[?|[?|[?|[]]]]].
    + intros [Hn|(c' & Hc' & Hn)]; congruence.
  - split_and!; try done.
    intros i' m' [= <- <-]. done.
Qed.

Lemma conversation_frame_witness :
  (conversation no_fallback
     {| input_text := "I need a human AGENT";
        conv_call_id := Some "CALL_123456" |} sample_booking).1
  = sample_booking.
Proof.
  assert (detect_intent "I need a human AGENT" = Some ("agent", agent_reply))
    as Hd by reflexivity.
  apply (proj1 (proj2 (proj1 (proj2 (proj2 (proj2
    (conversation_frame no_fallback
       {| input_text := "I need a human AGENT";
          conv_call_id := Some "CALL_123456" |} sample_booking))))
    _ _ Hd))).
  rewrite !elem_of_cons. by left.
Defined.

(** C9. With no credential configured, a text on which every keyword rule
    fails and which has fewer than six digits is answered with intent
    "unknown", the fixed help message and the request's call id, and the
    store is left as it is. *)
Theorem conversation_unknown env req st :
  credential_configured env = false ->
  (forall r, r ∈ keyword_rules ->
     any_in r.1 (lower (input_text req)) = false) ->
  String.length (digits_of (input_text req)) < 6 ->
  conversation env req st =
  (st, {| cr_intent := "unknown"; cr_message := help_msg;
          cr_call_id := conv_call_id req |}).
Proof.
  intros Hcred Hrules Hdigits.
  assert (detect_intent (input_text req) = None) as Hd
    by (apply detect_intent_None; auto).
  unfold conversation.
  by rewrite detect_intent_strip, Hd, (openai_fallback_disabled _ _ Hcred).
Qed.

Lemma conversation_unknown_witness :
  conversation no_fallback
    {| input_text := "xyz 12"; conv_call_id := Some "CALL_123456" |}
    sample_booking
  = (sample_booking,
     {| cr_intent := "unknown"; cr_message := help_msg;
        cr_call_id := Some "CALL_123456" |}).
Proof.
  apply conversation_unknown.
  - reflexivity.
  - intros r. unfold keyword_rules. rewrite !elem_of_cons, elem_of_nil.
    intros [->|[->|[->|[->|[->|[]]]]]]; reflexivity.
  - vm_compute. lia.
Defined.

End Conversation.

(** ** Further properties of the handlers *)

Section Calls.
Import PyStr PyStrFacts.

Implicit Types (st : store) (s : session) (cid now : string).

(** *** The three ways [handle_dtmf] answers a known call *)

Lemma digit_trichotomy (d : string) :
  d ∉ mapped_digits
  \/ d = "9"
  \/ exists target msg, (d, (target, msg)) ∈ dtmf_menu_table.
Proof.
  destruct (decide (d ∈ mapped_digits)) as [Hd|Hd]; [|by left].
  right. revert Hd. unfold mapped_digits, dtmf_menu_table.
  rewrite !elem_of_cons, elem_of_nil.
  intros [->|[->|[->|[->|[->|[]]]]]]; [right|right|right|left|right];
    try done; do 2 eexists;
    repeat first [apply list_elem_of_here|apply list_elem_of_further].
Qed.

Lemma menu_table_not_agent (d target msg : string) :
  (d, (target, msg)) ∈ dtmf_menu_table ->
  d ≠ "9" /\ d ∈ mapped_digits /\ is_Some (MENU_STRUCTURE !! target).
Proof.
  unfold dtmf_menu_table, mapped_digits.
  rewrite !elem_of_cons, elem_of_nil.
  intros [[= -> -> ->]|[[= -> -> ->]|[[= -> -> ->]|[[= -> -> ->]|[]]]]];
    (split_and!; [done|auto 8|by eexists]).
Qed.

Lemma handle_dtmf_menu_eq now inp st s target msg :
  active_calls st !! dtmf_call_id inp = Some s ->
  (digit inp, (target, msg)) ∈ dtmf_menu_table ->
  handle_dtmf now inp st =
  ({| active_calls :=
        <[dtmf_call_id inp := entered (digit inp) target s]> (active_calls st);
      call_history := call_history st |},
   Return (Some {| dr_status := "ok"; dr_message := msg;
                   dr_current_menu := Some target |})).
Proof.
  intros Hs Hd. destruct (mapping_menu_digit _ _ _ Hd) as [Hm _].
  unfold handle_dtmf. rewrite Hs, Hm.
  revert Hd. unfold dtmf_menu_table. rewrite !elem_of_cons, elem_of_nil.
  intros [[= _ -> ->]|[[= _ -> ->]|[[= _ -> ->]|[[= _ -> ->]|[]]]]];
    cbn [truthy negb String.eqb Ascii.eqb Bool.eqb];
    rewrite enter_menu_eq; cbn [active_calls call_history];
    by rewrite insert_insert_eq.
Qed.

Lemma handle_dtmf_cases now inp st s :
  active_calls st !! dtmf_call_id inp = Some s -> dtmf_case now inp st s.
Proof.
  intros Hs.
  destruct (digit_trichotomy (digit inp)) as [Hd|[Hd|(target & msg & Hd)]].
  - apply dtmf_invalid; [done|]. by apply handle_dtmf_unmapped_eq.
  - apply dtmf_transfer; [done|]. by apply handle_dtmf_agent_eq.
  - eapply dtmf_menu; [done|]. by apply handle_dtmf_menu_eq.
Qed.

(** X1. [handle_dtmf] raises, with code 404 and the store untouched,
    exactly for a call id that is not a key of the active registry. For a
    key it always returns a dict, never [None]: the end of its body is not
    reached. The status is "transferred" exactly for the digit 9,
    "invalid" exactly for a digit outside the digit map, "ok" otherwise. *)
Theorem handle_dtmf_outcome now inp st :
  match active_calls st !! dtmf_call_id inp with
  | None =>
      handle_dtmf now inp st = (st, HTTPException 404 "Call not found")
  | Some s =>
      exists r,
        (handle_dtmf now inp st).2 = Return (Some r)
        /\ dr_status r ∈ ["invalid"; "transferred"; "ok"]
        /\ (dr_status r = "transferred" <-> digit inp = "9")
        /\ (dr_status r = "invalid" <-> digit inp ∉ mapped_digits)
  end.
Proof.
  destruct (active_calls st !! dtmf_call_id inp) as [s|] eqn:Hs; cycle 1.
  { unfold handle_dtmf. by rewrite Hs. }
  destruct (handle_dtmf_cases now inp st s Hs) as [Hd E|Hd E|target msg Hd E];
    rewrite E; eexists; (split; [reflexivity|]); cbn [dr_status].
  - split_and!; [rewrite !elem_of_cons; auto| |done].
    split; [done|]. intros H9. exfalso. apply Hd. rewrite H9.
    unfold mapped_digits. rewrite !elem_of_cons. auto 6.
  - split_and!; [rewrite !elem_of_cons; auto|done|].
    split; [done|]. intros Hn. exfalso. apply Hn. rewrite Hd.
    unfold mapped_digits. rewrite !elem_of_cons. auto 6.
  - destruct (menu_table_not_agent _ _ _ Hd) as (Hn9 & Hin & _).
    split_and!; [rewrite !elem_of_cons; auto 6| |]; split; done.
Qed.

Lemma handle_dtmf_outcome_witness :
  handle_dtmf "2024-01-01T10:00:09" (sample_dtmf "1") init_store
  = (init_store, HTTPException 404 "Call not found").
Proof.
  exact (handle_dtmf_outcome "2024-01-01T10:00:09" (sample_dtmf "1")
           init_store).
Defined.

(** *** One call at a time *)

Lemma extends_refl s : extends s s.
Proof. by unfold extends. Qed.

Lemma extends_log s d : extends s (set_inputs (inputs s ++ [d]) s).
Proof.
  unfold extends. cbn. split_and!; try done. by apply prefix_app_r.
Qed.

Lemma extends_entered s d target : extends s (entered d target s).
Proof.
  unfold extends. cbn. split_and!; try done; by apply prefix_app_r.
Qed.

Lemma extends_ended s now : extends s (set_end_time now s).
Proof. by unfold extends. Qed.

Lemma extends_trans s1 s2 s3 : extends s1 s2 -> extends s2 s3 -> extends s1 s3.
Proof.
  unfold extends. intros (?&?&?&?&?) (?&?&?&?&?).
  split_and!; try congruence; by etrans.
Qed.

Lemma handle_dtmf_other now inp st c :
  c ≠ dtmf_call_id inp ->
  active_calls (handle_dtmf now inp st).1 !! c = active_calls st !! c.
Proof.
  intros Hc.
  destruct (active_calls st !! dtmf_call_id inp) as [s|] eqn:Hs; cycle 1.
  { unfold handle_dtmf. by rewrite Hs. }
  destruct (handle_dtmf_cases now inp st s Hs) as [_ E|_ E|? ? _ E];
    rewrite E; cbn [fst active_calls].
  - by rewrite lookup_insert_ne.
  - by rewrite lookup_delete_ne.
  - by rewrite lookup_insert_ne.
Qed.

Lemma end_call_other now cid st c :
  c ≠ cid ->
  active_calls (end_call now cid st).1 !! c = active_calls st !! c.
Proof.
  intros Hc. unfold end_call.
  destruct (active_calls st !! cid); [|done].
  cbn [fst active_calls]. by rewrite lookup_delete_ne.
Qed.

Lemma conversation_other env req st c :
  conv_call_id req ≠ Some c ->
  active_calls (conversation env req st).1 !! c = active_calls st !! c.
Proof.
  intros Hc.
  destruct (detect_intent (input_text req)) as [[i m]|] eqn:Hd; cycle 1.
  { by rewrite (proj1 (conversation_unclassified env req st Hd)). }
  rewrite (conversation_classified env req st i m Hd). cbn [fst].
  destruct (attached req st) as [[c' s]|] eqn:Ha; [|done].
  apply attached_Some in Ha as [Hc' _].
  case_bool_decide; [|done]. cbn [active_calls].
  rewrite lookup_insert_ne; [done|congruence].
Qed.

(** X2. A request about one call leaves the sessions of all other calls
    as they are: [handle_dtmf] and [end_call] those under any key but the
    request's call id, [conversation] those under any key but the call id
    it was given, if any. *)
Theorem handlers_touch_one_call st c :
  (forall now inp, c ≠ dtmf_call_id inp ->
     active_calls (handle_dtmf now inp st).1 !! c = active_calls st !! c)
  /\ (forall now cid, c ≠ cid ->
       active_calls (end_call now cid st).1 !! c = active_calls st !! c)
  /\ (forall env req, conv_call_id req ≠ Some c ->
       active_calls (conversation env req st).1 !! c = active_calls st !! c).
Proof.
  split_and!; intros.
  - by apply handle_dtmf_other.
  - by apply end_call_other.
  - by apply conversation_other.
Qed.

Lemma handlers_touch_one_call_witness :
  active_calls
    (end_call "2024-01-01T10:03:00" "CALL_654321" sample_booking).1
    !! "CALL_123456"
  = active_calls sample_booking !! "CALL_123456".
Proof.
  by apply (proj1 (proj2 (handlers_touch_one_call sample_booking
                            "CALL_123456"))).
Defined.

(** *** Where a session goes *)

Lemma handle_dtmf_continued now inp st c s :
  active_calls st !! c = Some s ->
  continued st (handle_dtmf now inp st).1 c s.
Proof.
  intros Hc. destruct (decide (c = dtmf_call_id inp)) as [->|Hne]; cycle 1.
  { left. exists s. rewrite handle_dtmf_other by done.
    split; [done|apply extends_refl]. }
  unfold continued.
  destruct (handle_dtmf_cases now inp st s Hc) as [_ E|_ E|? ? _ E];
    rewrite E; cbn [fst active_calls call_history].
  - left. eexists. split; [auto with ivr|apply extends_log].
  - right. eexists. split_and!; [auto with ivr|done| |by eexists].
    eapply extends_trans; [apply extends_log|apply extends_ended].
  - left. eexists. split; [auto with ivr|apply extends_entered].
Qed.

Lemma end_call_continued now cid st c s :
  active_calls st !! c = Some s ->
  continued st (end_call now cid st).1 c s.
Proof.
  intros Hc. destruct (decide (c = cid)) as [->|Hne]; cycle 1.
  { left. exists s. rewrite end_call_other by done.
    split; [done|apply extends_refl]. }
  unfold continued, end_call. rewrite Hc.
  cbn [fst active_calls call_history].
  right. eexists. split_and!; [auto with ivr|done| |by eexists].
  apply extends_ended.
Qed.

Lemma conversation_continued env req st c s :
  active_calls st !! c = Some s ->
  continued st (conversation env req st).1 c s.
Proof.
  intros Hc. unfold continued. left.
  destruct (detect_intent (input_text req)) as [[i m]|] eqn:Hd; cycle 1.
  { rewrite (proj1 (conversation_unclassified env req st Hd)).
    exists s. split; [done|apply extends_refl]. }
  rewrite (conversation_classified env req st i m Hd). cbn [fst].
  destruct (attached req st) as [[c' s0]|] eqn:Ha; cycle 1.
  { exists s. split; [done|apply extends_refl]. }
  apply attached_Some in Ha as [_ Hs0].
  case_bool_decide; cycle 1.
  { exists s. split; [done|apply extends_refl]. }
  cbn [active_calls]. destruct (decide (c' = c)) as [->|Hne].
  - eexists. split; [auto with ivr|]. simplify_eq.
    unfold extends. cbn. split_and!; try done. by apply prefix_app_r.
  - exists s. rewrite lookup_insert_ne by done.
    split; [done|apply extends_refl].
Qed.

(** X3. No request but a new [start_call] drawing its id loses a
    session. After [handle_dtmf], [conversation] or [end_call] a session
    of the active registry is either still under its key, with the same
    call id, caller and start time and with [menu_path] and [inputs]
    extended at the end, or it is gone from the registry and is, so
    extended and stamped with an end time, the entry the request appended
    to the archive; [conversation] always leaves it in the registry.
    [start_call] leaves as it is every session but the one under the id
    it draws. *)
Theorem session_continuity st c s :
  active_calls st !! c = Some s ->
  (forall now inp, continued st (handle_dtmf now inp st).1 c s)
  /\ (forall now cid, continued st (end_call now cid st).1 c s)
  /\ (forall env req,
        exists s', active_calls (conversation env req st).1 !! c = Some s'
                   /\ extends s s')
  /\ (forall rnd now call,
        (start_call rnd now call st).2.(sr_call_id) ≠ c ->
        active_calls (start_call rnd now call st).1 !! c = Some s).
Proof.
  intros Hc. split_and!; intros.
  - by apply handle_dtmf_continued.
  - by apply end_call_continued.
  - destruct (conversation_continued env req st c s Hc)
      as [?|(s' & Hn & Hh & _)]; [done|].
    exfalso. apply (f_equal length) in Hh. rewrite length_app in Hh.
    destruct (detect_intent (input_text req)) as [[i m]|] eqn:Hd.
    + rewrite (conversation_classified env req st i m Hd) in Hh.
      cbn [fst] in Hh. repeat case_match; cbn in Hh; lia.
    + rewrite (proj1 (conversation_unclassified env req st Hd)) in Hh.
      cbn in Hh. lia.
  - unfold start_call in *. cbn [fst snd sr_call_id active_calls] in *.
    by rewrite lookup_insert_ne.
Qed.

Lemma session_continuity_witness :
  continued sample_booking
    (end_call "2024-01-01T10:03:00" "CALL_123456" sample_booking).1
    "CALL_123456"
    {| call_id := "CALL_123456"; s_caller_number := "9999999999";
       start_time := "2024-01-01T10:00:00"; end_time := None;
       current_menu := "booking"; menu_path := ["main"; "booking"];
       inputs := ["1"] |}.
Proof.
  apply (proj1 (proj2 (session_continuity sample_booking "CALL_123456" _
                         eq_refl))).
Defined.

(** *** The archive and the counts of the status endpoint *)

Ltac no_entry := exists []; split; [by rewrite ?app_nil_r|cbn; lia].
Ltac one_entry := eexists; split; [reflexivity|cbn; lia].

Lemma step_history st st' :
  step st st' ->
  exists k, call_history st' = (call_history st ++ k)%list /\ length k <= 1.
Proof.
  destruct 1 as [rnd now call st _|now inp st|env req st|now cid st].
  - no_entry.
  - destruct (active_calls st !! dtmf_call_id inp) as [s|] eqn:Hs; cycle 1.
    { unfold handle_dtmf. rewrite Hs. no_entry. }
    destruct (handle_dtmf_cases now inp st s Hs) as [_ E|_ E|? ? _ E];
      rewrite E; cbn [fst call_history]; [no_entry|one_entry|no_entry].
  - destruct (detect_intent (input_text req)) as [[i m]|] eqn:Hd.
    + rewrite (conversation_classified env req st i m Hd). cbn [fst].
      repeat case_match; no_entry.
    + rewrite (proj1 (conversation_unclassified env req st Hd)). no_entry.
  - unfold end_call. destruct (active_calls st !! cid);
      cbn [fst call_history]; [one_entry|no_entry].
Qed.

(** X4. The archive is append-only. One request adds at most one entry
    at its end and changes none; so across any run of requests the
    archive before is a prefix of the archive after, and the
    [total_calls] reported by [root] never goes down. *)
Theorem archive_append_only :
  (forall st st', step st st' ->
     exists k, call_history st' = (call_history st ++ k)%list /\ length k <= 1)
  /\ (forall st st', rtc step st st' ->
       call_history st `prefix_of` call_history st'
       /\ rr_total_calls (root st) <= rr_total_calls (root st')).
Proof.
  split; [apply step_history|].
  intros st st' Hr.
  assert (call_history st `prefix_of` call_history st') as Hp.
  { induction Hr as [|st1 st2 st3 H12 _ IH]; [done|].
    etrans; [|exact IH].
    destruct (step_history _ _ H12) as (k & -> & _). by apply prefix_app_r. }
  split; [done|]. by apply prefix_length.
Qed.

Lemma archive_append_only_witness :
  call_history init_store `prefix_of` call_history sample_booking.
Proof.
  exact (proj1 (proj2 archive_append_only _ _ sample_booking_reachable)).
Defined.

Lemma size_delete_known (m : gmap string session) c s :
  m !! c = Some s -> size m = S (size (delete c m)).
Proof.
  intros Hc. rewrite <- (insert_id m c s Hc) at 1.
  rewrite <- insert_delete_eq.
  apply map_size_insert_None, lookup_delete_eq.
Qed.

(** X5. The counts of [root]. Ending a known call, by [end_call] or by
    the digit 9, takes one from [active_calls] and adds one to
    [total_calls]. [start_call] adds one to [active_calls] when the id it
    draws is free; when the id is taken the count stays, and as
    [total_calls] stays too, the call that held the id is counted
    nowhere any more. *)
Theorem root_counts st :
  (forall now cid, is_Some (active_calls st !! cid) ->
     let st' := (end_call now cid st).1 in
     rr_active_calls (root st) = S (rr_active_calls (root st'))
     /\ rr_total_calls (root st') = S (rr_total_calls (root st)))
  /\ (forall now inp, is_Some (active_calls st !! dtmf_call_id inp) ->
       digit inp = "9" ->
       let st' := (handle_dtmf now inp st).1 in
       rr_active_calls (root st) = S (rr_active_calls (root st'))
       /\ rr_total_calls (root st') = S (rr_total_calls (root st)))
  /\ (forall rnd now call,
       let r := start_call rnd now call st in
       rr_total_calls (root r.1) = rr_total_calls (root st)
       /\ (active_calls st !! sr_call_id r.2 = None ->
           rr_active_calls (root r.1) = S (rr_active_calls (root st)))
       /\ (is_Some (active_calls st !! sr_call_id r.2) ->
           rr_active_calls (root r.1) = rr_active_calls (root st))).
Proof.
  unfold root. cbn [rr_active_calls rr_total_calls]. split_and!.
  - intros now cid [s Hs]. unfold end_call. rewrite Hs.
    cbn [fst active_calls call_history]. split.
    + by eapply size_delete_known.
    + rewrite length_app. cbn. lia.
  - intros now inp [s Hs] Hd.
    rewrite (handle_dtmf_agent_eq now _ _ _ Hs Hd).
    cbn [fst active_calls call_history]. split.
    + by eapply size_delete_known.
    + rewrite length_app. cbn. lia.
  - intros rnd now call. unfold start_call.
    cbn [fst snd sr_call_id active_calls call_history]. split_and!.
    + done.
    + apply map_size_insert_None.
    + apply map_size_insert_Some.
Qed.

Lemma root_counts_witness :
  rr_active_calls (root sample_booking)
  = S (rr_active_calls
         (root (end_call "2024-01-01T10:03:00" "CALL_123456"
                  sample_booking).1)).
Proof.
  eassert (is_Some (active_calls sample_booking !! "CALL_123456")) as Hs
    by (by eexists).
  exact (proj1 (proj1 (root_counts sample_booking)
                  "2024-01-01T10:03:00" "CALL_123456" Hs)).
Defined.

(** *** Runs of key presses *)

Lemma press_cons now cid d ds st :
  press now cid (d :: ds) st =
  press now cid ds
    (handle_dtmf now {| dtmf_call_id := cid; digit := d;
                        dtmf_current_menu := None |} st).1.
Proof. reflexivity. Qed.

Lemma press_absent now cid ds st :
  active_calls st !! cid = None -> press now cid ds st = st.
Proof.
  intros Hc. induction ds as [|d ds IH]; [done|].
  rewrite press_cons. unfold handle_dtmf. cbn [dtmf_call_id].
  by rewrite Hc.
Qed.

Lemma press_keys now cid ds st s :
  active_calls st !! cid = Some s ->
  "9" ∉ ds ->
  exists s',
    active_calls (press now cid ds st) !! cid = Some s'
    /\ inputs s' = (inputs s ++ ds)%list
    /\ menu_path s' = (menu_path s ++ omap (mapping !!.) ds)%list
    /\ current_menu s'
       = default (current_menu s) (last (omap (mapping !!.) ds))
    /\ extends s s'
    /\ call_history (press now cid ds st) = call_history st.
Proof.
  revert st s. induction ds as [|d ds IH]; intros st s Hs Hds.
  { exists s. cbn. rewrite !app_nil_r. split_and!; try done. }
  apply not_elem_of_cons in Hds as [Hd Hds]. rewrite press_cons.
  set (inp := {| dtmf_call_id := cid; digit := d; dtmf_current_menu := None |}).
  destruct (handle_dtmf_cases now inp st s Hs) as [Hu E|H9 E|target msg Ht E];
    cbn [digit dtmf_call_id inp] in *; [| congruence |].
  - apply mapping_unmapped in Hu. rewrite E. cbn [fst].
    match goal with |- context [press _ _ _ ?st1] =>
      destruct (IH st1 (set_inputs (inputs s ++ [d]) s)) as
        (s' & Hs' & Hin & Hp & Hm & He & Hh);
        [cbn [active_calls]; auto with ivr|done|]
    end.
    cbn [inputs menu_path current_menu set_inputs] in Hin, Hp, Hm.
    exists s'. cbn [omap list_omap]. rewrite Hu.
    split_and!; try done.
    + by rewrite Hin, <- app_assoc.
    + eapply extends_trans; [apply extends_log|done].
  - destruct (mapping_menu_digit _ _ _ Ht) as [Hm _]. rewrite E. cbn [fst].
    match goal with |- context [press _ _ _ ?st1] =>
      destruct (IH st1 (entered d target s)) as
        (s' & Hs' & Hin & Hp & Hc & He & Hh);
        [cbn [active_calls]; auto with ivr|done|]
    end.
    cbn [inputs menu_path current_menu entered] in Hin, Hp, Hc.
    exists s'. cbn [omap list_omap]. rewrite Hm.
    split_and!; try done.
    + by rewrite Hin, <- app_assoc.
    + by rewrite Hp, <- app_assoc.
    + rewrite Hc.
      by destruct (omap (mapping !!.) ds) as [|? ?] using rev_ind;
        [|rewrite app_comm_cons, !last_snoc].
    + eapply extends_trans; [apply extends_entered|done].
Qed.

(** X6. A caller pressing any run of keys with no 9 in it stays in the
    active registry and archives nothing. All the keys, mapped or not,
    are appended in order to the session's [inputs]; [menu_path] is
    extended by the menus of the mapped keys alone, in order, and
    [current_menu] is the menu of the last mapped key, or unchanged if
    no key was mapped. *)
Theorem press_menu_keys now cid ds st s :
  active_calls st !! cid = Some s ->
  "9" ∉ ds ->
  let st' := press now cid ds st in
  exists s',
    active_calls st' !! cid = Some s'
    /\ inputs s' = (inputs s ++ ds)%list
    /\ menu_path s' = (menu_path s ++ omap (mapping !!.) ds)%list
    /\ current_menu s'
       = default (current_menu s) (last (omap (mapping !!.) ds))
    /\ call_history st' = call_history st.
Proof.
  intros Hs Hds st'. subst st'.
  destruct (press_keys now cid ds st s Hs Hds)
    as (s' & ? & ? & ? & ? & _ & ?).
  by exists s'.
Qed.

Lemma press_menu_keys_witness :
  exists s',
    active_calls (press "2024-01-01T10:00:09" "CALL_123456"
                    ["2"; "7"; "3"; "0"; "#"] sample_booking)
      !! "CALL_123456" = Some s'
    /\ inputs s' = ["1"; "2"; "7"; "3"; "0"; "#"]
    /\ menu_path s' = ["main"; "booking"; "train_status"; "refund"; "main"].
Proof.
  eassert (active_calls sample_booking !! "CALL_123456" = Some _) as Hs
    by reflexivity.
  assert ("9" ∉ ["2"; "7"; "3"; "0"; "#"]) as Hds.
  { rewrite !not_elem_of_cons. split_and!; try done. apply not_elem_of_nil. }
  destruct (press_menu_keys "2024-01-01T10:00:09" _ _ _ _ Hs Hds)
    as (s' & H1 & H2 & H3 & _).
  exists s'. split_and!; [exact H1|exact H2|exact H3].
Defined.

(** X7. The first 9 ends the run: the keys before it and the 9 are in
    the [inputs] of the archived session, which is the one entry added to
    the archive, the call id is no longer a key, and whatever is pressed
    after the 9 changes nothing (each such request raises). *)
Theorem press_until_transfer now cid ds1 ds2 st s :
  active_calls st !! cid = Some s ->
  "9" ∉ ds1 ->
  let st' := press now cid (ds1 ++ "9" :: ds2) st in
  active_calls st' !! cid = None
  /\ st' = press now cid (ds1 ++ ["9"]) st
  /\ exists s',
       call_history st' = (call_history st ++ [s'])%list
       /\ inputs s' = (inputs s ++ ds1 ++ ["9"])%list
       /\ menu_path s' = (menu_path s ++ omap (mapping !!.) ds1)%list
       /\ end_time s' = Some now.
Proof.
  intros Hs Hds st'. subst st'.
  destruct (press_keys now cid ds1 st s Hs Hds)
    as (s1 & Hs1 & Hin & Hp & _ & _ & Hh).
  assert (forall ds, press now cid (ds1 ++ "9" :: ds) st =
    {| active_calls := delete cid (active_calls (press now cid ds1 st));
       call_history :=
         call_history st
         ++ [set_end_time now (set_inputs (inputs s1 ++ ["9"]) s1)] |}) as E.
  { intros ds. unfold press at 1. rewrite foldl_app. fold (press now cid ds1 st).
    cbn [foldl].
    rewrite (handle_dtmf_agent_eq now
               {| dtmf_call_id := cid; digit := "9";
                  dtmf_current_menu := None |} _ _ Hs1 eq_refl).
    cbn [fst dtmf_call_id]. rewrite Hh.
    apply (press_absent now cid ds). cbn [active_calls]. auto with ivr. }
  rewrite !E. cbn [active_calls call_history]. split_and!; [auto with ivr|done|].
  eexists. split_and!; [done| |done|done].
  cbn [inputs set_end_time set_inputs]. by rewrite Hin, <- app_assoc.
Qed.

Lemma press_until_transfer_witness :
  active_calls (press "2024-01-01T10:00:09" "CALL_123456"
                  ["2"; "9"; "1"] sample_booking)
    !! "CALL_123456" = None.
Proof.
  eassert (active_calls sample_booking !! "CALL_123456" = Some _) as Hs
    by reflexivity.
  assert ("9" ∉ ["2"]) as Hds by (by apply not_elem_of_cons; split;
                                   [|apply not_elem_of_nil]).
  exact (proj1 (press_until_transfer "2024-01-01T10:00:09" _ ["2"] ["1"]
                  _ _ Hs Hds)).
Defined.

(** *** The shape of the sessions the process holds *)

Lemma path_ok_eq s s' :
  menu_path s' = menu_path s -> current_menu s' = current_menu s ->
  path_ok s -> path_ok s'.
Proof. unfold path_ok. by intros -> ->. Qed.

Lemma path_ok_snoc s s' m :
  menu_path s' = (menu_path s ++ [m])%list -> current_menu s' = m ->
  is_Some (MENU_STRUCTURE !! m) ->
  path_ok s -> path_ok s'.
Proof.
  unfold path_ok. intros -> -> Hm ([p Hp] & Hall & _). split_and!.
  - exists (p ++ [m])%list. by rewrite Hp.
  - apply Forall_app. split; [done|]. by apply Forall_singleton.
  - done.
Qed.

Lemma menu_intents_catalog (i : string) :
  i ∈ menu_intents -> is_Some (MENU_STRUCTURE !! i).
Proof.
  unfold menu_intents. rewrite !elem_of_cons, elem_of_nil.
  intros [->|[->|[->|[->|[]]]]]; by eexists.
Qed.

Lemma live_ok_later cid s s' :
  call_id s' = call_id s -> end_time s' = end_time s -> path_ok s' ->
  live_ok cid s -> live_ok cid s'.
Proof.
  unfold live_ok. intros Hid Hend Hp (? & ? & ? & _).
  split_and!; congruence.
Qed.

Lemma live_ok_ended cid s now :
  live_ok cid s -> ended_ok (set_end_time now s).
Proof.
  unfold live_ok, ended_ok. intros (Hid & Hd & _ & Hp).
  cbn [call_id end_time set_end_time]. rewrite Hid. split_and!; [done|by eexists|by eapply path_ok_eq].
Qed.

Lemma store_wf_insert st cid s h :
  store_wf st -> live_ok cid s ->
  (forall s', s' ∈ h -> s' ∈ call_history st) ->
  store_wf {| active_calls := <[cid := s]> (active_calls st);
              call_history := h |}.
Proof.
  intros [Ha Hh] Hs Hsub. split; cbn [active_calls call_history].
  - intros c s'. rewrite lookup_insert.
    case_decide; [intros [= <-]; by subst|apply Ha].
  - intros s' Hin. auto.
Qed.

Lemma store_wf_archive st cid s now :
  store_wf st -> live_ok cid s ->
  store_wf {| active_calls := delete cid (active_calls st);
              call_history := call_history st ++ [set_end_time now s] |}.
Proof.
  intros [Ha Hh] Hs. split; cbn [active_calls call_history].
  - intros c s'. rewrite lookup_delete. case_decide; [done|apply Ha].
  - intros s'. rewrite elem_of_app, list_elem_of_singleton.
    intros [?| ->]; [auto|]. by eapply live_ok_ended.
Qed.

Lemma step_store_wf st st' : step st st' -> store_wf st -> store_wf st'.
Proof.
  destruct 1 as [rnd now call st Hr|now inp st|env req st|now cid st];
    intros Hwf.
  - unfold start_call. cbn [fst]. apply store_wf_insert; [done| |done].
    unfold live_ok. cbn. split_and!; try done.
    + by exists rnd.
    + unfold path_ok. cbn. split_and!; [by eexists| |by eexists].
      apply Forall_singleton. by eexists.
  - destruct (active_calls st !! dtmf_call_id inp) as [s|] eqn:Hs; cycle 1.
    { unfold handle_dtmf. by rewrite Hs. }
    pose proof (proj1 Hwf _ _ Hs) as Hlive.
    destruct (handle_dtmf_cases now inp st s Hs) as [_ E|_ E|t msg Ht E];
      rewrite E; cbn [fst].
    + apply store_wf_insert; [done| |done].
      eapply live_ok_later; [..|exact Hlive]; try done.
      eapply path_ok_eq; [..|apply Hlive]; done.
    + apply store_wf_archive; [done|].
      eapply live_ok_later; [..|exact Hlive]; try done.
      eapply path_ok_eq; [..|apply Hlive]; done.
    + apply store_wf_insert; [done| |done].
      eapply live_ok_later; [..|exact Hlive]; try done.
      eapply path_ok_snoc; [..|apply Hlive]; try done.
      apply (menu_table_not_agent _ _ _ Ht).
  - destruct (detect_intent (input_text req)) as [[i m]|] eqn:Hd; cycle 1.
    { by rewrite (proj1 (conversation_unclassified env req st Hd)). }
    rewrite (conversation_classified env req st i m Hd). cbn [fst].
    destruct (attached req st) as [[c s]|] eqn:Ha; [|done].
    apply attached_Some in Ha as [_ Hs].
    case_bool_decide as Hi; [|done].
    pose proof (proj1 Hwf _ _ Hs) as Hlive.
    apply store_wf_insert; [done| |done].
    eapply live_ok_later; [..|exact Hlive]; try done.
    eapply path_ok_snoc; [..|apply Hlive]; try done.
    by apply menu_intents_catalog.
  - unfold end_call. destruct (active_calls st !! cid) as [s|] eqn:Hs; [|done].
    cbn [fst]. apply store_wf_archive; [done|]. by apply Hwf.
Qed.

(** X8. In every store the process can reach, each session of the active
    registry sits under its own [call_id], which is "CALL_" followed by a
    number from 100000 to 999999, has no end time, has a [menu_path] that
    starts with "main" and names only menus of the catalog, and has a
    [current_menu] that is a menu of the catalog; each archived session
    has such an id and such a path, and an end time. *)
Theorem reachable_store_wf st :
  reachable st ->
  (forall cid s, active_calls st !! cid = Some s ->
     call_id s = cid /\ drawn_id cid /\ end_time s = None /\ path_ok s)
  /\ (forall s, s ∈ call_history st ->
       drawn_id (call_id s) /\ is_Some (end_time s) /\ path_ok s).
Proof.
  intros Hr. change (store_wf st).
  eapply (rtc_ind_r store_wf); [| |exact Hr].
  - split; [intros c s; cbn; by rewrite lookup_empty|].
    intros s. cbn. by rewrite elem_of_nil.
  - intros y z _ Hstep Hy. by eapply step_store_wf.
Qed.

Lemma reachable_store_wf_witness :
  drawn_id "CALL_123456"
  /\ path_ok {| call_id := "CALL_123456"; s_caller_number := "9999999999";
                start_time := "2024-01-01T10:00:00"; end_time := None;
                current_menu := "booking"; menu_path := ["main"; "booking"];
                inputs := ["1"] |}.
Proof.
  eassert (active_calls sample_booking !! "CALL_123456" = Some _) as Hs
    by reflexivity.
  destruct (proj1 (reachable_store_wf sample_booking sample_booking_reachable)
              _ _ Hs) as (_ & Hd & _ & Hp).
  exact (conj Hd Hp).
Defined.

End Calls.

(** ** Further properties of the classifier *)

Section Verdicts.
Import PyStr PyStrFacts.

Lemma length_take (n : nat) (s : string) :
  String.length (take n s) = n `min` String.length s.
Proof.
  revert s. induction n as [|n IH]; intros [|c s]; cbn; try done.
  by rewrite IH.
Qed.

Lemma all_digits_digits_of (t : string) : all_digits (digits_of t) = true.
Proof.
  induction t as [|c t IH]; [done|]. cbn [digits_of].
  destruct (isdigit c) eqn:E; [|done]. cbn [all_digits]. by rewrite E.
Qed.

Lemma all_digits_take (n : nat) (s : string) :
  all_digits s = true -> all_digits (take n s) = true.
Proof.
  revert s. induction n as [|n IH]; intros [|c s]; cbn; try done.
  intros [-> ?]%andb_true_iff. by apply IH.
Qed.

(** The verdict on a text no keyword rule matches. *)
Lemma detect_intent_unmatched (text : string) :
  (forall r, r ∈ keyword_rules -> any_in r.1 (lower text) = false) ->
  detect_intent text =
  if (6 <=? String.length (digits_of text))%nat
  then Some ("pnr_lookup", pnr_reply (take 6 (digits_of text)))
  else None.
Proof.
  intros Hr.
  assert (forall ks reply, (ks, reply) ∈ keyword_rules ->
                           any_in ks (lower text) = false) as Hk.
  { intros ks reply Hin. exact (Hr _ Hin). }
  unfold keyword_rules in Hk. unfold detect_intent.
  rewrite (Hk booking_keywords ("booking", booking_reply)),
    (Hk train_status_keywords ("train_status", train_status_reply)),
    (Hk refund_keywords ("refund", refund_reply)),
    (Hk agent_keywords ("agent", agent_reply)),
    (Hk main_keywords ("main", menu_prompt "main"))
    by (rewrite !elem_of_cons; auto 8).
  by rewrite digits_of_lower.
Qed.

(** The verdict on a text some keyword rule matches is the reply of a
    rule of the table. *)
Lemma detect_intent_matched (text : string) r :
  r ∈ keyword_rules -> any_in r.1 (lower text) = true ->
  exists r', r' ∈ keyword_rules /\ detect_intent text = Some r'.2.
Proof.
  intros Hr Hm. unfold detect_intent.
  destruct (any_in booking_keywords _) eqn:E1.
  { exists (booking_keywords, ("booking", booking_reply)).
    split; [|reflexivity]. unfold keyword_rules. rewrite !elem_of_cons. auto. }
  destruct (any_in train_status_keywords _) eqn:E2.
  { exists (train_status_keywords, ("train_status", train_status_reply)).
    split; [|reflexivity]. unfold keyword_rules. rewrite !elem_of_cons. auto. }
  destruct (any_in refund_keywords _) eqn:E3.
  { exists (refund_keywords, ("refund", refund_reply)).
    split; [|reflexivity]. unfold keyword_rules.
    rewrite !elem_of_cons. auto 6. }
  destruct (any_in agent_keywords _) eqn:E4.
  { exists (agent_keywords, ("agent", agent_reply)).
    split; [|reflexivity]. unfold keyword_rules.
    rewrite !elem_of_cons. auto 6. }
  destruct (any_in main_keywords _) eqn:E5.
  { exists (main_keywords, ("main", menu_prompt "main")).
    split; [|reflexivity]. unfold keyword_rules.
    rewrite !elem_of_cons. auto 8. }
  exfalso. revert Hr Hm. unfold keyword_rules.
  rewrite !elem_of_cons, elem_of_nil.
  intros [->|[->|[->|[->|[->|[]]]]]]; cbn [fst]; congruence.
Qed.

Lemma keyword_rule_not_pnr r :
  r ∈ keyword_rules -> r.2.1 ≠ "pnr_lookup" /\ r.2.1 ∈ classifier_intents.
Proof.
  unfold keyword_rules, classifier_intents.
  rewrite !elem_of_cons, elem_of_nil.
  intros [->|[->|[->|[->|[->|[]]]]]]; cbn [fst snd];
    (split; [done|auto 8]).
Qed.

Lemma no_rule_or_some (text : string) :
  (forall r, r ∈ keyword_rules -> any_in r.1 (lower text) = false)
  \/ (exists r, r ∈ keyword_rules /\ any_in r.1 (lower text) = true).
Proof.
  unfold keyword_rules.
  destruct (any_in booking_keywords (lower text)) eqn:E1.
  { right. exists (booking_keywords, ("booking", booking_reply)).
    split; [|exact E1]. rewrite !elem_of_cons. auto. }
  destruct (any_in train_status_keywords (lower text)) eqn:E2.
  { right. exists (train_status_keywords, ("train_status", train_status_reply)).
    split; [|exact E2]. rewrite !elem_of_cons. auto. }
  destruct (any_in refund_keywords (lower text)) eqn:E3.
  { right. exists (refund_keywords, ("refund", refund_reply)).
    split; [|exact E3]. rewrite !elem_of_cons. auto 6. }
  destruct (any_in agent_keywords (lower text)) eqn:E4.
  { right. exists (agent_keywords, ("agent", agent_reply)).
    split; [|exact E4]. rewrite !elem_of_cons. auto 6. }
  destruct (any_in main_keywords (lower text)) eqn:E5.
  { right. exists (main_keywords, ("main", menu_prompt "main")).
    split; [|exact E5]. rewrite !elem_of_cons. auto 8. }
  left. intros r. rewrite !elem_of_cons, elem_of_nil.
  intros [->|[->|[->|[->|[->|[]]]]]]; assumption.
Qed.

(** X9. The verdict of [detect_intent] depends on the text only up to
    letter case and to white space at its two ends: lower-casing the
    text, stripping it, or replacing it by any text with the same
    lower-casing leaves the verdict as it is. *)
Theorem detect_intent_insensitive (text : string) :
  detect_intent (lower text) = detect_intent text
  /\ detect_intent (strip text) = detect_intent text
  /\ (forall text', lower text' = lower text ->
        detect_intent text' = detect_intent text).
Proof.
  split_and!.
  - unfold detect_intent. by rewrite lower_idem.
  - apply detect_intent_strip.
  - intros text' H. unfold detect_intent. by rewrite H.
Qed.

Lemma detect_intent_insensitive_witness :
  detect_intent "  Train STATUS please " = detect_intent "train status please".
Proof.
  rewrite <- (proj1 (proj2 (detect_intent_insensitive
                              "  Train STATUS please "))).
  apply (proj2 (proj2 (detect_intent_insensitive "train status please"))).
  reflexivity.
Defined.

(** X10. The PNR rule is the last resort. A text is classified
    pnr_lookup exactly when no keyword of any rule occurs in its
    lower-casing and it holds at least six digit characters; the PNR in
    the reply is then made of the first six of them, in order. So a text
    in which a keyword occurs, "pnr" and "status" among them, is never
    looked up, however many digits it holds. *)
Theorem pnr_lookup_last_resort (text : string) :
  (forall m,
     detect_intent text = Some ("pnr_lookup", m) <->
     (forall r, r ∈ keyword_rules -> any_in r.1 (lower text) = false)
     /\ 6 <= String.length (digits_of text)
     /\ m = pnr_reply (take 6 (digits_of text)))
  /\ (6 <= String.length (digits_of text) ->
      String.length (take 6 (digits_of text)) = 6
      /\ all_digits (take 6 (digits_of text)) = true)
  /\ (forall r k, r ∈ keyword_rules -> k ∈ r.1 ->
        contains k (lower text) = true ->
        exists i m, detect_intent text = Some (i, m) /\ i ≠ "pnr_lookup").
Proof.
  split_and!.
  - intros m. split.
    + intros Hd. destruct (no_rule_or_some text) as [Hn|(r & Hr & Hm)].
      * rewrite (detect_intent_unmatched _ Hn) in Hd.
        destruct (6 <=? _)%nat eqn:Hlen; [|done].
        apply Nat.leb_le in Hlen. by simplify_eq.
      * destruct (detect_intent_matched _ _ Hr Hm) as (r' & Hr' & E).
        destruct (keyword_rule_not_pnr _ Hr') as [Hne _].
        rewrite E in Hd. destruct r' as [ks [i' m']].
        cbn [fst snd] in Hd, Hne. by simplify_eq.
    + intros (Hn & Hlen & ->). rewrite (detect_intent_unmatched _ Hn).
      apply Nat.leb_le in Hlen. by rewrite Hlen.
  - intros Hlen. split.
    + rewrite length_take. lia.
    + apply all_digits_take, all_digits_digits_of.
  - intros r k Hr Hk Hc.
    assert (any_in r.1 (lower text) = true) as Hm
      by (by eapply any_in_true).
    destruct (detect_intent_matched _ _ Hr Hm) as (r' & Hr' & E).
    destruct (keyword_rule_not_pnr _ Hr') as [Hne _].
    destruct r' as [ks [i' m']]. cbn [fst snd] in E, Hne. by exists i', m'.
Qed.

Lemma pnr_lookup_last_resort_witness :
  detect_intent "it is 12-34-56, or 7"
  = Some ("pnr_lookup", pnr_reply "123456").
Proof.
  apply (proj1 (pnr_lookup_last_resort "it is 12-34-56, or 7")). split_and!.
  - intros r. unfold keyword_rules. rewrite !elem_of_cons, elem_of_nil.
    intros [->|[->|[->|[->|[->|[]]]]]]; reflexivity.
  - vm_compute. lia.
  - reflexivity.
Defined.

End Verdicts.

(** ** Further properties of the text path and of whole calls *)

Section Dialogue.
Import PyStr PyStrFacts.

Implicit Types (st : store) (req : ConversationRequest) (env : environment).

(** *** What [strip] leaves *)

Lemma rstrip_head (c : ascii) (s : string) :
  isspace c = false -> exists r, rstrip (String c s) = String c r.
Proof.
  intros Hc. rewrite rstrip_cons, Hc. destruct (rstrip s); by eexists.
Qed.

Lemma rstrip_last (s : string) :
  rstrip s = ""
  \/ exists c, last_char (rstrip s) = Some c /\ isspace c = false.
Proof.
  induction s as [|c s IH]; [by left|].
  rewrite rstrip_cons. destruct (rstrip s) as [|a r] eqn:E.
  - destruct (isspace c) eqn:Hc; [by left|]. right. by exists c.
  - right. destruct IH as [?|(c' & Hl & Hc')]; [done|]. by exists c'.
Qed.

Lemma lstrip_head (s : string) :
  lstrip s = "" \/ exists c r, lstrip s = String c r /\ isspace c = false.
Proof.
  induction s as [|c s IH]; [by left|].
  rewrite lstrip_cons. destruct (isspace c) eqn:Hc; [done|].
  right. by exists c, s.
Qed.

(** A stripped text is empty, or begins and ends with characters that
    are not white space. *)
Lemma strip_solid (s : string) : strip s = "" \/ solid (strip s) = true.
Proof.
  unfold strip. destruct (lstrip_head s) as [->|(c & r & -> & Hc)]; [by left|].
  right. destruct (rstrip_head c r Hc) as [r' E].
  destruct (rstrip_last (String c r)) as [E'|(c' & Hl & Hc')]; [congruence|].
  unfold solid. rewrite Hl, Hc'. rewrite E. by rewrite Hc.
Qed.

Lemma lstrip_empty (s : string) : lstrip s = "" <-> all_space s = true.
Proof.
  induction s as [|c s IH]; [done|].
  rewrite lstrip_cons. cbn [all_space].
  destruct (isspace c); [by rewrite IH|done].
Qed.

(** A stripped text is empty exactly when the text is all white space. *)
Lemma strip_empty (s : string) : strip s = "" <-> all_space s = true.
Proof.
  rewrite <- lstrip_empty. unfold strip. split; [|by intros ->].
  destruct (lstrip_head s) as [->|(c & r & -> & Hc)]; [done|].
  destruct (rstrip_head c r Hc) as [r' ->]. done.
Qed.

(** *** The fallback *)

(** X11. [openai_fallback] gives no answer when the credential is unset
    or empty, when the [openai] module is missing, and when the call to
    the service fails; otherwise its answer is the content the service
    returned, stripped. So an answer never begins or ends with white
    space, and is empty exactly when the service returned nothing but
    white space. *)
Theorem openai_fallback_spec env text :
  (credential_configured env = false -> openai_fallback env text = None)
  /\ (openai env = None -> openai_fallback env text = None)
  /\ (forall create,
        credential_configured env = true -> openai env = Some create ->
        openai_fallback env text = strip <$> create text)
  /\ (forall r, openai_fallback env text = Some r ->
        (r = "" \/ solid r = true)
        /\ exists create content,
             openai env = Some create /\ create text = Some content
             /\ r = strip content
             /\ (r = "" <-> all_space content = true)).
Proof.
  unfold credential_configured, openai_fallback. split_and!.
  - destruct (OPENAI_API_KEY env) as [key|]; [|done].
    intros ->. by destruct (openai env).
  - intros ->. by destruct (OPENAI_API_KEY env).
  - intros create Hk ->. destruct (OPENAI_API_KEY env) as [key|]; [|done].
    rewrite Hk. by destruct (create text).
  - intros r. destruct (OPENAI_API_KEY env) as [key|]; [|done].
    destruct (openai env) as [create|]; [|done].
    destruct (truthy key); [|done].
    destruct (create text) as [content|] eqn:Hc; [|done].
    intros [= <-]. split; [apply strip_solid|].
    exists create, content. split_and!; try done. apply strip_empty.
Qed.

Lemma openai_fallback_spec_witness :
  openai_fallback echo_fallback "xyz" = Some "You said: xyz".
Proof.
  by rewrite (proj1 (proj2 (proj2 (openai_fallback_spec echo_fallback "xyz")))
                _ eq_refl eq_refl).
Defined.

(** *** The answers of [conversation] *)

Lemma detect_intent_reply (text i m : string) :
  detect_intent text = Some (i, m) ->
  i ∈ classifier_intents /\ truthy m = true.
Proof.
  unfold detect_intent, classifier_intents. intros H.
  repeat (case_match; simplify_eq;
          try (split; [rewrite !elem_of_cons; auto 8|done])).
Qed.

(** X12. [conversation] always answers with one of the eight intents
    booking, train_status, refund, agent, main, pnr_lookup, ai_fallback
    and unknown, with a message that is not empty, and with the call id
    of the request, given or not, known or not. *)
Theorem conversation_answer env req st :
  let r := (conversation env req st).2 in
  cr_intent r ∈ conversation_intents
  /\ truthy (cr_message r) = true
  /\ cr_call_id r = conv_call_id req.
Proof.
  intros r. subst r.
  destruct (detect_intent (input_text req)) as [[i m]|] eqn:Hd.
  - rewrite (conversation_classified env req st i m Hd).
    cbn [snd cr_intent cr_message cr_call_id].
    destruct (detect_intent_reply _ _ _ Hd) as [Hi Hm].
    split_and!; try done. unfold conversation_intents.
    apply elem_of_app. by left.
  - unfold conversation. rewrite detect_intent_strip, Hd.
    unfold conversation_intents, classifier_intents.
    destruct (openai_fallback env _) as [a|]; [destruct (truthy a) eqn:Ha|];
      cbn [snd cr_intent cr_message cr_call_id];
      (split_and!; [rewrite !elem_of_app, !elem_of_cons; auto 10|done|done]).
Qed.

(** X13. On a text the rules do not classify, with the fallback enabled,
    [conversation] asks the service with the stripped text and leaves the
    store as it is. It answers ai_fallback with the stripped content when
    the service returned something other than white space, and unknown
    with the help message when the call failed or returned only white
    space. *)
Theorem conversation_fallback env req st create :
  detect_intent (input_text req) = None ->
  credential_configured env = true ->
  openai env = Some create ->
  let r := conversation env req st in
  r.1 = st
  /\ match create (strip (input_text req)) with
     | Some content =>
         if all_space content
         then r.2 = {| cr_intent := "unknown"; cr_message := help_msg;
                       cr_call_id := conv_call_id req |}
         else r.2 = {| cr_intent := "ai_fallback";
                       cr_message := strip content;
                       cr_call_id := conv_call_id req |}
     | None => r.2 = {| cr_intent := "unknown"; cr_message := help_msg;
                        cr_call_id := conv_call_id req |}
     end.
Proof.
  intros Hd Hk Ho r. subst r. unfold conversation.
  rewrite detect_intent_strip, Hd.
  unfold openai_fallback, credential_configured in *.
  destruct (OPENAI_API_KEY env) as [key|]; [|done]. rewrite Ho, Hk.
  destruct (create (strip (input_text req))) as [content|]; [|done].
  destruct (all_space content) eqn:Hs.
  - apply strip_empty in Hs. by rewrite Hs.
  - destruct (strip content) as [|c u] eqn:E; [|done].
    apply strip_empty in E. congruence.
Qed.

Lemma conversation_fallback_witness :
  conversation echo_fallback
    {| input_text := " xyz "; conv_call_id := None |} sample_booking
  = (sample_booking,
     {| cr_intent := "ai_fallback"; cr_message := "You said: xyz";
        cr_call_id := None |}).
Proof.
  set (env := echo_fallback).
  set (req := {| input_text := " xyz "; conv_call_id := None |}).
  destruct (conversation_fallback env req sample_booking _
              eq_refl eq_refl eq_refl) as [H1 H2].
  rewrite (surjective_pairing (conversation env req sample_booking)), H1.
  apply (f_equal (pair sample_booking)). exact H2.
Defined.

(** *** The text path on a session *)

Lemma attached_known req st c s :
  conv_call_id req = Some c -> c ≠ "" -> active_calls st !! c = Some s ->
  attached req st = Some (c, s).
Proof.
  unfold attached. intros -> Hc ->. by destruct c.
Qed.

(** X14. Said with the id of a known call, a text classified booking,
    train_status, refund or main moves the session as the matching key
    would, setting [current_menu] and extending [menu_path] by the
    intent, but, unlike a key, it is not recorded: [conversation] never
    changes the [inputs], the end time, the caller or the start time of
    any session, and the path of a session it changes at all grows by
    exactly the session's new [current_menu]. *)
Theorem conversation_text_path env req st :
  (forall c s i m,
     conv_call_id req = Some c -> c ≠ "" ->
     active_calls st !! c = Some s ->
     detect_intent (input_text req) = Some (i, m) ->
     i ∈ menu_intents ->
     active_calls (conversation env req st).1 !! c =
     Some {| call_id := call_id s; s_caller_number := s_caller_number s;
             start_time := start_time s; end_time := end_time s;
             current_menu := i; menu_path := menu_path s ++ [i];
             inputs := inputs s |})
  /\ (forall c s', active_calls (conversation env req st).1 !! c = Some s' ->
       exists s, active_calls st !! c = Some s
         /\ inputs s' = inputs s /\ end_time s' = end_time s
         /\ call_id s' = call_id s
         /\ s_caller_number s' = s_caller_number s
         /\ start_time s' = start_time s
         /\ (s' = s \/ menu_path s' = (menu_path s ++ [current_menu s'])%list)).
Proof.
  split.
  - intros c s i m Hc Hne Hs Hd Hi.
    rewrite (conversation_classified env req st i m Hd).
    rewrite (attached_known req st c s Hc Hne Hs).
    rewrite bool_decide_eq_true_2 by done.
    cbn [fst active_calls]. by rewrite lookup_insert_eq.
  - intros c s'.
    destruct (detect_intent (input_text req)) as [[i m]|] eqn:Hd; cycle 1.
    { rewrite (proj1 (conversation_unclassified env req st Hd)).
      intros Hs'. exists s'. split_and!; auto. }
    rewrite (conversation_classified env req st i m Hd). cbn [fst].
    destruct (attached req st) as [[c0 s0]|] eqn:Ha; cycle 1.
    { intros Hs'. exists s'. split_and!; auto. }
    apply attached_Some in Ha as [_ Hs0].
    case_bool_decide; cycle 1.
    { intros Hs'. exists s'. split_and!; auto. }
    cbn [active_calls]. rewrite lookup_insert. case_decide as Hc.
    + intros [= <-]. subst c0. exists s0. cbn. split_and!; auto.
    + intros Hs'. exists s'. split_and!; auto.
Qed.

Lemma conversation_text_path_witness :
  menu_path <$>
    active_calls
      (conversation no_fallback
         {| input_text := "I want a REFUND";
            conv_call_id := Some "CALL_123456" |} sample_booking).1
      !! "CALL_123456"
  = Some ["main"; "booking"; "refund"].
Proof.
  eassert (active_calls sample_booking !! "CALL_123456" = Some _) as Hs
    by reflexivity.
  assert ("refund" ∈ menu_intents) as Hi
    by (unfold menu_intents; rewrite !elem_of_cons; auto).
  assert ("CALL_123456" ≠ "") as Hne by done.
  by rewrite (proj1 (conversation_text_path no_fallback
                       {| input_text := "I want a REFUND";
                          conv_call_id := Some "CALL_123456" |}
                       sample_booking)
                _ _ "refund" refund_reply eq_refl Hne Hs eq_refl Hi).
Defined.

(** *** Whole calls *)

Lemma detect_intent_main (text m : string) :
  detect_intent text = Some ("main", m) -> m = menu_prompt "main".
Proof.
  unfold detect_intent. intros H. by repeat (case_match; simplify_eq).
Qed.

(** X15. A call from start to menu and back. For any store, caller,
    draw and times: after [start_call], the key 1 pressed on the id it
    returned takes the call to the booking menu, and a text classified
    main ("back", "main menu", ...) said with that id takes it back to
    the main menu and is answered with the prompt [start_call] gave; the
    session then has the path main, booking, main and the one input 1. *)
Theorem start_press_back rnd now call st now' env text m :
  detect_intent text = Some ("main", m) ->
  let r0 := start_call rnd now call st in
  let cid := sr_call_id r0.2 in
  let r1 := handle_dtmf now' {| dtmf_call_id := cid; digit := "1";
                                dtmf_current_menu := None |} r0.1 in
  let r2 := conversation env {| input_text := text;
                                conv_call_id := Some cid |} r1.1 in
  (exists msg, r1.2 = Return (Some {| dr_status := "ok"; dr_message := msg;
                                     dr_current_menu := Some "booking" |}))
  /\ current_menu <$> active_calls r1.1 !! cid = Some "booking"
  /\ active_calls r2.1 !! cid =
     Some {| call_id := cid; s_caller_number := caller_number call;
             start_time := now; end_time := None;
             current_menu := "main";
             menu_path := ["main"; "booking"; "main"];
             inputs := ["1"] |}
  /\ r2.2 = {| cr_intent := "main"; cr_message := sr_prompt r0.2;
               cr_call_id := Some cid |}
  /\ call_history r2.1 = call_history st.
Proof.
  intros Hd r0 cid r1 r2.
  pose proof (detect_intent_main _ _ Hd) as ->.
  set (inp := {| dtmf_call_id := cid; digit := "1";
                 dtmf_current_menu := None |}) in r1.
  set (req := {| input_text := text; conv_call_id := Some cid |}) in r2.
  set (fresh := {| call_id := cid; s_caller_number := caller_number call;
                   start_time := now; end_time := None;
                   current_menu := "main"; menu_path := ["main"];
                   inputs := [] |}).
  assert (active_calls r0.1 !! dtmf_call_id inp = Some fresh) as Hs0
    by apply lookup_insert_eq.
  assert ((digit inp, ("booking",
             "You selected Booking. Do you want Sleeper or AC?"))
          ∈ dtmf_menu_table) as Ht by apply list_elem_of_here.
  pose proof (handle_dtmf_menu_eq now' inp r0.1 fresh _ _ Hs0 Ht) as E1.
  fold r1 in E1.
  assert (active_calls r1.1 !! cid = Some (entered "1" "booking" fresh))
    as Hs1 by (rewrite E1; apply lookup_insert_eq).
  assert (cid ≠ "") as Hne by done.
  assert ("main" ∈ menu_intents) as Hi
    by (unfold menu_intents; rewrite !elem_of_cons; auto 6).
  pose proof (conversation_classified env req r1.1 _ _ Hd) as E2.
  fold r2 in E2.
  rewrite (attached_known req r1.1 cid _ eq_refl Hne Hs1) in E2.
  rewrite (bool_decide_eq_true_2 _ Hi) in E2.
  rewrite E2. cbn [fst snd active_calls call_history].
  rewrite Hs1, lookup_insert_eq, E1. split_and!; try done. by eexists.
Qed.

Lemma start_press_back_witness :
  current_menu <$>
    active_calls
      (conversation no_fallback
         {| input_text := "go BACK"; conv_call_id := Some "CALL_123456" |}
         sample_booking).1 !! "CALL_123456"
  = Some "main".
Proof.
  assert (detect_intent "go BACK" = Some ("main", menu_prompt "main")) as Hd
    by reflexivity.
  destruct (start_press_back 123456 "2024-01-01T10:00:00" sample_caller
              init_store "2024-01-01T10:00:05" no_fallback _ _ Hd)
    as (_ & _ & H & _).
  by rewrite (f_equal (fmap current_menu) H).
Defined.

(** X16. A call started under a free id and ended at once leaves the
    active registry exactly as it was before the call, and leaves in the
    archive one more entry: the new session at the main menu, with no
    inputs, stamped with the time of the end. *)
Theorem start_then_end rnd now now' call st :
  let r := start_call rnd now call st in
  let cid := sr_call_id r.2 in
  active_calls st !! cid = None ->
  end_call now' cid r.1 =
  ({| active_calls := active_calls st;
      call_history :=
        call_history st ++
        [{| call_id := cid; s_caller_number := caller_number call;
            start_time := now; end_time := Some now';
            current_menu := "main"; menu_path := ["main"];
            inputs := [] |}] |},
   {| er_status := "ended" |}).
Proof.
  intros r cid Hfree. subst r cid. unfold start_call in *.
  cbn [fst snd sr_call_id] in *. unfold end_call.
  cbn [active_calls call_history]. rewrite lookup_insert_eq.
  by rewrite delete_insert_id.
Qed.

Lemma start_then_end_witness :
  active_calls
    (end_call "2024-01-01T10:09:00" "CALL_123456" sample_started).1
  = active_calls init_store.
Proof.
  assert (active_calls init_store !! "CALL_123456" = None) as Hfree
    by reflexivity.
  exact (f_equal (fun r => active_calls r.1)
           (start_then_end 123456 "2024-01-01T10:00:00"
              "2024-01-01T10:09:00" sample_caller init_store Hfree)).
Defined.

End Dialogue.
